(** * ProductRepo: the product data-access layer of scannerPOS

    A shallow embedding of [src/product/product.repository.ts].  The
    repository class talks to PostgreSQL through knex; every method is a
    handful of statements run against the tables [product] and [branch],
    followed by a little arithmetic on the result.  The embedding has three
    layers:

    - JavaScript values and the string primitives the code uses
      (template literals, [trim], [map]/[join], [parseInt], [Math.ceil]);
    - the SQL fragment the query texts are written in, as syntax, with an
      evaluator over tables (lists of rows, a row being a map from column
      names to values);
    - the seven methods of [ProductRepo], in a state-and-exception monad
      over the database, the statement trace and the console.

    The migration of the [admin] table
    ([src/migrations/20250419085519_create_admin_table.ts]) is embedded
    beside it, over a catalog of tables.

    Conventions.  JavaScript numbers are modelled by [Z] (integers in the
    safe range, on which [/] followed by [Math.ceil] is exact); strings by
    [string], one [ascii] per code unit below 256. *)

From Stdlib Require Import ZArith String Ascii List Lia.
From stdpp Require Import gmap strings list fin_maps.

Local Open Scope Z_scope.

(** ** JavaScript values *)

(** The values that flow between the repository, knex and the driver:
    [null], numbers, strings and arrays of strings.  [undefined] is the
    [None] of an [option]. *)
Inductive Val :=
  | VNull
  | VNum (n : Z)
  | VStr (s : string)
  | VArr (l : list string).

(** A JavaScript object used as a record of columns: a result row, or the
    [updateData] object handed to knex. *)
Abbreviation Row := (gmap string Val).

(** The result of an arithmetic expression that may leave the integers. *)
Inductive Num :=
  | NInt (n : Z)
  | NInf (positive : bool)
  | NNaN.

(** ** Strings *)

Module Js.

(** The double quote, written by its code to keep string literals plain. *)
Definition dquote : string := String "034"%char EmptyString.

(** WhiteSpace and LineTerminator code units below 256 (ECMAScript 12.2,
    12.3): TAB, LF, VT, FF, CR, SP, NBSP. *)
Definition is_space (c : ascii) : bool :=
  let n := N_of_ascii c in
  ((9 <=? n) && (n <=? 13) || (n =? 32) || (n =? 160))%N.

Fixpoint trimStart (s : string) : string :=
  match s with
  | EmptyString => EmptyString
  | String c s' => if is_space c then trimStart s' else s
  end.

Fixpoint trimEnd (s : string) : string :=
  match s with
  | EmptyString => EmptyString
  | String c s' =>
      match trimEnd s' with
      | EmptyString => if is_space c then EmptyString else String c EmptyString
      | t => String c t
      end
  end.

(** [String.prototype.trim] *)
Definition trim (s : string) : string := trimEnd (trimStart s).

Definition is_empty (s : string) : bool :=
  match s with EmptyString => true | _ => false end.

(** [`"${x}"`] *)
Definition quoted (x : string) : string := dquote +:+ x +:+ dquote.

(** [`{${xs.map((x) => `"${x}"`).join(',')}}`] *)
Definition pgArray (xs : list string) : string :=
  "{" +:+ String.concat "," (map quoted xs) +:+ "}".

(** [`%${q}%`] *)
Definition wrapPercent (q : string) : string := "%" +:+ q +:+ "%".

(** *** Decimal numerals

    node-postgres delivers a [bigint] (the type of [COUNT( * )]) as its
    decimal text; the repository reads it back with [parseInt]. *)

Definition digit_char (d : nat) : ascii := ascii_of_nat (48 + d).

Definition is_digit (c : ascii) : bool :=
  let n := N_of_ascii c in ((48 <=? n) && (n <=? 57))%N.

Definition digit_val (c : ascii) : Z := Z.of_N (N_of_ascii c) - 48.

(** Least significant digit first; [fuel] bounds the number of digits. *)
Fixpoint digits_le (fuel : nat) (n : nat) : list nat :=
  match fuel with
  | O => []
  | S fuel' =>
      if (n <? 10)%nat then [n]
      else (n mod 10)%nat :: digits_le fuel' (n / 10)%nat
  end.

Definition string_of_digits (ds : list nat) : string :=
  fold_right (fun d s => String (digit_char d) s) EmptyString ds.

(** The value of a numeral given least significant digit first. *)
Definition value_le (ds : list nat) : Z :=
  fold_right (fun d v => Z.of_nat d + 10 * v) 0 ds.

(** The decimal text of a natural number. *)
Definition decimal (n : nat) : string :=
  string_of_digits (rev (digits_le (S n) n)).

(** The longest prefix of decimal digits, accumulated left to right;
    [None] while no digit has been read. *)
Fixpoint parse_digits (s : string) (acc : option Z) : option Z :=
  match s with
  | EmptyString => acc
  | String c s' =>
      if is_digit c
      then parse_digits s'
             (Some (10 * (match acc with Some a => a | None => 0 end)
                    + digit_val c))
      else acc
  end.

(** [parseInt(s)] in radix 10: leading white space is skipped, an optional
    sign is read, then the longest run of digits; [NaN] when there is no
    digit.  (The hexadecimal prefix is not modelled: no text read here
    carries one.) *)
Definition parseIntString (s : string) : Num :=
  let s := trimStart s in
  let '(sign, s) :=
    match s with
    | String "-"%char s' => (-1, s')
    | String "+"%char s' => (1, s')
    | _ => (1, s)
    end in
  match parse_digits s None with
  | Some n => NInt (sign * n)
  | None => NNaN
  end.

(** [parseInt(v)] on a value read from a row; a missing property is
    [undefined]. *)
Definition parseInt (v : option Val) : Num :=
  match v with
  | Some (VStr s) => parseIntString s
  | Some (VNum n) => NInt n
  | _ => NNaN
  end.

(** [Math.ceil(a / b)].  On integers [a] and [b <> 0] this is the ceiling
    of the exact quotient; division by zero gives an infinity, or [NaN]
    for [0 / 0]. *)
Definition ceilDiv (a : Num) (b : Z) : Num :=
  match a with
  | NInt a =>
      if b =? 0 then
        if a =? 0 then NNaN else NInf (0 <? a)
      else NInt (- ((- a) / b))
  | NInf p => if b =? 0 then NInf p else NInf (Bool.eqb p (0 <? b))
  | NNaN => NNaN
  end.

(** [a < b] for an integer [a]. *)
Definition ltNum (a : Z) (b : Num) : bool :=
  match b with
  | NInt b => a <? b
  | NInf p => p
  | NNaN => false
  end.

End Js.

(** ** Array literals, as the server reads them *)

Module PgArray.

(** Where the reader stands in a one-dimensional literal whose elements
    are quoted: before the opening brace, after it, inside an element
    (with the characters read so far), after a backslash, after a closing
    quote, after a comma, after the closing brace. *)
Inductive Mode :=
  | Start
  | Opened
  | Inside (element : string)
  | Escaped (element : string)
  | After
  | Comma
  | Closed.

Definition snoc (s : string) (c : ascii) : string :=
  s +:+ String c EmptyString.

(** Inside quotes a backslash takes the next character literally and a
    double quote ends the element; a text that is not of this shape is
    refused. *)
Fixpoint read_from (m : Mode) (acc : list string) (s : string)
  : option (list string) :=
  match s with
  | EmptyString =>
      match m with
      | Closed => Some acc
      | _ => None
      end
  | String c s' =>
      match m with
      | Start =>
          if Ascii.eqb c "{" then read_from Opened acc s' else None
      | Opened =>
          if Ascii.eqb c "}" then read_from Closed acc s'
          else if Ascii.eqb c "034" then read_from (Inside EmptyString) acc s'
          else None
      | Inside e =>
          if Ascii.eqb c "034" then read_from After (acc ++ [e]) s'
          else if Ascii.eqb c "\" then read_from (Escaped e) acc s'
          else read_from (Inside (snoc e c)) acc s'
      | Escaped e => read_from (Inside (snoc e c)) acc s'
      | After =>
          if Ascii.eqb c "," then read_from Comma acc s'
          else if Ascii.eqb c "}" then read_from Closed acc s'
          else None
      | Comma =>
          if Ascii.eqb c "034" then read_from (Inside EmptyString) acc s'
          else None
      | Closed => None
      end
  end.

Definition read (s : string) : option (list string) := read_from Start [] s.

(** An element without double quote and backslash. *)
Fixpoint clean (x : string) : bool :=
  match x with
  | EmptyString => true
  | String c x' =>
      negb (Ascii.eqb c "034") && negb (Ascii.eqb c "\") && clean x'
  end.

(** The text after the first element of a literal: each further
    element behind a comma, then the closing brace. *)
Fixpoint tail_text (xs : list string) : string :=
  match xs with
  | [] => "}"
  | x :: xs' => "," +:+ Js.quoted x +:+ tail_text xs'
  end.

End PgArray.

(** ** PostgreSQL: the fragment the query texts use *)

Module Pg.

(** *** [ILIKE]

    [LIKE] patterns: [%] matches any run of characters, [_] any single
    character, and a backslash makes the character after it literal.
    PostgreSQL rejects a pattern that ends in a lone backslash; here such
    a pattern matches nothing. *)
Fixpoint like (p s : string) : bool :=
  match p with
  | EmptyString => Js.is_empty s
  | String c p' =>
      if Ascii.eqb c "%" then
        (fix skip (s : string) : bool :=
           like p' s
           || match s with
              | EmptyString => false
              | String _ s' => skip s'
              end) s
      else if Ascii.eqb c "_" then
        match s with
        | EmptyString => false
        | String _ s' => like p' s'
        end
      else if Ascii.eqb c "\" then
        match p' with
        | EmptyString => false
        | String e p'' =>
            match s with
            | EmptyString => false
            | String d s' => Ascii.eqb e d && like p'' s'
            end
        end
      else
        match s with
        | EmptyString => false
        | String d s' => Ascii.eqb c d && like p' s'
        end
  end.

(** Case folding, on the letters A-Z: what the server does to a text of
    code units below 128.  Other letters it folds by the locale of the
    database, which is not modelled; what is stated of texts that are
    not matched is stated of texts below 128 ([Spec.ascii_only]). *)
Definition lower (c : ascii) : ascii :=
  let n := N_of_ascii c in
  if ((65 <=? n) && (n <=? 90))%N then ascii_of_N (n + 32) else c.

Fixpoint lower_string (s : string) : string :=
  match s with
  | EmptyString => EmptyString
  | String c s' => String (lower c) (lower_string s')
  end.

(** [s ILIKE p]: [LIKE] on the folded text and the folded pattern. *)
Definition ilike (p s : string) : bool :=
  like (lower_string p) (lower_string s).

(** *** Tables

    The migrations of [product] and [branch] are not part of the sources.
    A table is a list of rows in storage order.  [defaults] holds what
    the server assigns to the columns an [INSERT] does not list (such as
    [updated_at]).  [ts_match name q] is the server's answer to
    [to_tsvector('simple', name) @@ plainto_tsquery(q)], which depends on
    its text-search configuration.  [admits rows r] is the verdict of the
    schema's constraints (keys, references, lengths) on a row [r] that is
    written beside the rows [rows]. *)
Record Db := {
  product : list Row;
  branch : list Row;
  defaults : Row;
  ts_match : string -> string -> bool;
  admits : list Row -> Row -> bool
}.

(** The same server with another product table. *)
Definition set_product (rows : list Row) (db : Db) : Db :=
  {| product := rows; branch := branch db; defaults := defaults db;
     ts_match := ts_match db; admits := admits db |}.

(** *** Statements *)

(** The select list. *)
Inductive Projection :=
  | CountStar               (* COUNT( * ) *)
  | ProductStar             (* * (from product alone) *)
  | ProductStarBranchName.  (* product.*, branch.name AS branch_name *)

(** The [FROM] clause. *)
Inductive Source :=
  | FromProduct             (* FROM product *)
  | FromProductJoinBranch.  (* FROM product JOIN branch
                               ON branch.id = product.branch_id *)

(** The conditions of the [WHERE] clauses; each holds one [?]. *)
Inductive Atom :=
  | TsNameMatch   (* to_tsvector('simple', product.name) @@ plainto_tsquery(?) *)
  | NameILike     (* product.name ILIKE ? *)
  | BarcodeILike  (* product.barcode ILIKE ? *)
  | BarcodeEq.    (* barcode = ? *)

(** A [WHERE] clause is a disjunction of conditions. *)
Record Select := {
  sel_proj : Projection;
  sel_from : Source;
  sel_where : option (list Atom);
  sel_order : bool;   (* ORDER BY updated_at DESC *)
  sel_limit : bool    (* LIMIT ? OFFSET ? *)
}.

Inductive Sql :=
  | SelectFrom (q : Select)
  | InsertProduct (columns : list string)  (* VALUES(?,...,?) RETURNING * *)
  | DeleteProduct (w : list Atom).         (* DELETE ... WHERE ... RETURNING * *)

Inductive DbError :=
  | BadBindings          (* the values do not fit the placeholders *)
  | NegativeLimit        (* LIMIT must not be negative *)
  | NegativeOffset       (* OFFSET must not be negative *)
  | MalformedArray       (* malformed array literal *)
  | ConstraintViolation. (* a constraint of the schema rejects the row *)

(** *** Evaluation *)

Definition text_of (r : Row) (col : string) : option string :=
  match r !! col with
  | Some (VStr s) => Some s
  | _ => None
  end.

(** One condition on a product row, with the value bound to its [?].
    A comparison with [NULL] is not true. *)
Definition eval_atom (db : Db) (a : Atom) (v : Val) (p : Row) : bool :=
  match v with
  | VStr x =>
      match a with
      | TsNameMatch =>
          match text_of p "name" with
          | Some n => ts_match db n x
          | None => false
          end
      | NameILike =>
          match text_of p "name" with
          | Some n => ilike x n
          | None => false
          end
      | BarcodeILike =>
          match text_of p "barcode" with
          | Some b => ilike x b
          | None => false
          end
      | BarcodeEq =>
          match text_of p "barcode" with
          | Some b => String.eqb b x
          | None => false
          end
      end
  | _ => false
  end.

(** The placeholders of a [WHERE] clause take the first values, in
    order; the rest is left for [LIMIT] and [OFFSET]. *)
Fixpoint bind_atoms (w : list Atom) (binds : list Val)
  : option (list (Atom * Val) * list Val) :=
  match w with
  | [] => Some ([], binds)
  | a :: w' =>
      match binds with
      | [] => None
      | v :: binds' =>
          match bind_atoms w' binds' with
          | Some (bound, rest) => Some ((a, v) :: bound, rest)
          | None => None
          end
      end
  end.

Definition eval_where (db : Db) (bound : list (Atom * Val)) (p : Row) : bool :=
  existsb (fun '(a, v) => eval_atom db a v p) bound.

(** [branch.id = product.branch_id] *)
Definition join_on (p b : Row) : bool :=
  match b !! "id", p !! "branch_id" with
  | Some (VNum i), Some (VNum j) => i =? j
  | _, _ => false
  end.

(** The rows of the [FROM] clause: a product row with the branch row
    joined to it (the empty row when there is no join). *)
Definition from (src : Source) (db : Db) : list (Row * Row) :=
  match src with
  | FromProduct => map (fun p => (p, ∅)) (product db)
  | FromProductJoinBranch =>
      flat_map (fun p => map (fun b => (p, b)) (filter (fun b => Is_true (join_on p b)) (branch db)))
               (product db)
  end.

(** The sort key of [ORDER BY updated_at DESC]; [None] is [NULL]. *)
Definition updated_at (p : Row) : option Z :=
  match p !! "updated_at" with
  | Some (VNum t) => Some t
  | _ => None
  end.

(** [x] is not after [y] in descending order; [NULL] sorts first. *)
Definition desc_le (x y : option Z) : bool :=
  match x, y with
  | None, _ => true
  | Some _, None => false
  | Some a, Some b => b <=? a
  end.

(** Insertion sort on the key.  Rows with equal keys keep their order
    here; PostgreSQL leaves the order of ties open, statement by
    statement, so an order is the server's only where the keys differ
    ([Spec.no_ties]). *)
Fixpoint insert_desc {A} (key : A -> option Z) (x : A) (l : list A) : list A :=
  match l with
  | [] => [x]
  | y :: l' =>
      if desc_le (key x) (key y) then x :: y :: l'
      else y :: insert_desc key x l'
  end.

Definition order_desc {A} (key : A -> option Z) (l : list A) : list A :=
  fold_right (insert_desc key) [] l.

Definition project (pr : Projection) (rows : list (Row * Row)) : list Row :=
  match pr with
  | CountStar =>
      [ {[ "count" := VStr (Js.decimal (length rows)) ]} ]
  | ProductStar => map fst rows
  | ProductStarBranchName =>
      map (fun '(p, b) =>
             <["branch_name" := default VNull (b !! "name")]> p) rows
  end.

Definition run_select (q : Select) (binds : list Val) (db : Db)
  : DbError + list Row :=
  match bind_atoms (default [] (sel_where q)) binds with
  | None => inl BadBindings
  | Some (bound, rest) =>
      let rows := from (sel_from q) db in
      let rows :=
        match sel_where q with
        | Some _ => filter (fun r => Is_true (eval_where db bound (fst r))) rows
        | None => rows
        end in
      let rows :=
        if sel_order q
        then order_desc (fun r => updated_at (fst r)) rows
        else rows in
      let out := project (sel_proj q) rows in
      match sel_limit q, rest with
      | false, [] => inr out
      | true, [VNum lim; VNum off] =>
          if lim <? 0 then inl NegativeLimit
          else if off <? 0 then inl NegativeOffset
          else inr (take (Z.to_nat lim) (drop (Z.to_nat off) out))
      | _, _ => inl BadBindings
      end
  end.

(** Modelled from the spec: the declaration of the [product] table is
    not part of the sources; the spec (section 3) has [tegs] and [image]
    stored as arrays. *)
Definition array_columns : list string := ["tegs"; "image"]%string.

(** What an array column keeps of a value bound to it.  A text is read
    as an array literal when the statement is bound, and refused when it
    is malformed; an array reaches the server as the literal the driver
    writes for it, with its elements escaped, and is kept as it is. *)
Definition array_in (v : Val) : option Val :=
  match v with
  | VNull => Some VNull
  | VStr s =>
      match PgArray.read s with
      | Some l => Some (VArr l)
      | None => None
      end
  | VArr l => Some (VArr l)
  | VNum _ => None
  end.

Definition store_column (col : string) (r : Row) : option Row :=
  match r !! col with
  | None => Some r
  | Some v =>
      match array_in v with
      | Some v' => Some (<[col := v']> r)
      | None => None
      end
  end.

(** The values of a written row as the columns keep them; [None] when a
    value is refused. *)
Definition store (r : Row) : option Row :=
  fold_right (fun col acc =>
                match acc with
                | Some r' => store_column col r'
                | None => None
                end) (Some r) array_columns.

(** [INSERT INTO product(columns) VALUES(?,...,?) RETURNING *]: the new
    row holds the values as the columns keep them, and the defaults
    elsewhere; the server refuses a malformed array literal, and a row
    that breaks a constraint. *)
Definition run_insert (columns : list string) (binds : list Val) (db : Db)
  : DbError + (list Row * Db) :=
  if (length columns =? length binds)%nat then
    match store (list_to_map (zip columns binds)) with
    | None => inl MalformedArray
    | Some bound =>
        let r : Row := bound ∪ defaults db in
        if admits db (product db) r
        then inr ([r], set_product (product db ++ [r]) db)
        else inl ConstraintViolation
    end
  else inl BadBindings.

(** [DELETE FROM product WHERE ... RETURNING *] *)
Definition run_delete (w : list Atom) (binds : list Val) (db : Db)
  : DbError + (list Row * Db) :=
  match bind_atoms w binds with
  | Some (bound, []) =>
      inr (filter (fun p => Is_true (eval_where db bound p)) (product db),
           {| product := filter (fun p => ~ Is_true (eval_where db bound p)) (product db);
              branch := branch db;
              defaults := defaults db; ts_match := ts_match db;
              admits := admits db |})
  | _ => inl BadBindings
  end.

(** [update "product" set c1 = ?, ... where "barcode" = ? returning *]:
    the statement knex builds from
    [db('product').where({ barcode }).update(set).returning('*')].  The
    values are read when the statement is bound, before any row is
    looked at; every row of the barcode is then overwritten, unless one
    of the new rows breaks a constraint beside the rows that stay. *)
Definition run_update (barcode : string) (set : Row) (db : Db)
  : DbError + (list Row * Db) :=
  let hit p := eval_atom db BarcodeEq (VStr barcode) p in
  match store set with
  | None => inl MalformedArray
  | Some set =>
      let rows :=
        map (fun p => set ∪ p)
          (filter (fun p => Is_true (hit p)) (product db)) in
      let others := filter (fun p => ~ Is_true (hit p)) (product db) in
      if forallb (admits db others) rows
      then inr (rows,
                set_product
                  (map (fun p => if hit p then set ∪ p else p) (product db))
                  db)
      else inl ConstraintViolation
  end.

End Pg.



(** ** The repository *)

Module Repo.
Import Pg.

(** *** Effects

    One shared [db] handle; every statement sent through it is recorded.
    The console receives what [console.log] prints. *)
Inductive Stmt :=
  | Raw (sql : Sql) (bindings : list Val)         (* db.raw(sql, bindings) *)
  | KnexUpdate (barcode : string) (set : Row).     (* the query builder *)

Record World := {
  db : Db;
  trace : list Stmt;
  console : list (option Val)
}.

Inductive Exn :=
  | JsError (message : string)   (* new Error(message) *)
  | TypeError                    (* a property read on undefined *)
  | PgError (e : DbError).       (* the promise of a statement rejects *)

Inductive Res (A : Type) :=
  | Ok (a : A)
  | Throw (e : Exn).
Arguments Ok {A} a.
Arguments Throw {A} e.

(** An [async] method: it runs from a world to a result and a world. *)
Definition M (A : Type) : Type := World -> Res A * World.

Definition ret {A} (a : A) : M A := fun w => (Ok a, w).

Definition throw {A} (e : Exn) : M A := fun w => (Throw e, w).

Definition bind {A B} (m : M A) (k : A -> M B) : M B :=
  fun w =>
    match m w with
    | (Ok a, w') => k a w'
    | (Throw e, w') => (Throw e, w')
    end.

Notation "x <- m ;; k" := (bind m (fun x => k))
  (at level 100, m at next level, right associativity).
Notation "m ;;; k" := (bind m (fun _ => k))
  (at level 100, right associativity).

Definition record (s : Stmt) (w : World) : World :=
  {| db := db w; trace := trace w ++ [s]; console := console w |}.

Definition with_db (d : Db) (w : World) : World :=
  {| db := d; trace := trace w; console := console w |}.

(** [(await db.raw(sql, bindings)).rows] *)
Definition raw (sql : Sql) (bindings : list Val) : M (list Row) :=
  fun w =>
    let w := record (Raw sql bindings) w in
    match sql with
    | SelectFrom q =>
        match run_select q bindings (db w) with
        | inr rows => (Ok rows, w)
        | inl e => (Throw (PgError e), w)
        end
    | InsertProduct columns =>
        match run_insert columns bindings (db w) with
        | inr (rows, d) => (Ok rows, with_db d w)
        | inl e => (Throw (PgError e), w)
        end
    | DeleteProduct c =>
        match run_delete c bindings (db w) with
        | inr (rows, d) => (Ok rows, with_db d w)
        | inl e => (Throw (PgError e), w)
        end
    end.

(** [await db('product').where({ barcode }).update(set).returning('*')] *)
Definition knexUpdate (barcode : string) (set : Row) : M (list Row) :=
  fun w =>
    let w := record (KnexUpdate barcode set) w in
    match run_update barcode set (db w) with
    | inr (rows, d) => (Ok rows, with_db d w)
    | inl e => (Throw (PgError e), w)
    end.

(** [console.log(v)] *)
Definition consoleLog (v : option Val) : M unit :=
  fun w =>
    (Ok tt, {| db := db w; trace := trace w; console := console w ++ [v] |}).

(** [rows[0].count]: reading a property of [undefined] throws. *)
Definition firstCount (rows : list Row) : M (option Val) :=
  match rows with
  | [] => throw TypeError
  | r :: _ => ret (r !! "count")
  end.

(** *** SQL Queries *)

Definition selectAllProductQuery : Sql :=
  SelectFrom {| sel_proj := ProductStar; sel_from := FromProduct;
                sel_where := None; sel_order := true; sel_limit := true |}.

Definition selectByIDProductQuery : Sql :=
  SelectFrom {| sel_proj := ProductStar; sel_from := FromProduct;
                sel_where := Some [BarcodeEq];
                sel_order := false; sel_limit := false |}.

Definition searchProductQuery : Sql :=
  SelectFrom {| sel_proj := ProductStarBranchName;
                sel_from := FromProductJoinBranch;
                sel_where := Some [TsNameMatch; NameILike; BarcodeILike];
                sel_order := false; sel_limit := false |}.

Definition createProductQuery : Sql :=
  InsertProduct
    ["barcode"; "name"; "branch_id"; "price"; "stock"; "real_price";
     "category_id"; "description"; "tegs"; "image"]%string.

Definition deleteProductQuery : Sql := DeleteProduct [BarcodeEq].

(** The four statements written inline in [getProducts]. *)

Definition countSearchQuery : Sql :=
  SelectFrom {| sel_proj := CountStar; sel_from := FromProductJoinBranch;
                sel_where := Some [TsNameMatch; NameILike; BarcodeILike];
                sel_order := false; sel_limit := false |}.

Definition pageSearchQuery : Sql :=
  SelectFrom {| sel_proj := ProductStarBranchName;
                sel_from := FromProductJoinBranch;
                sel_where := Some [TsNameMatch; NameILike; BarcodeILike];
                sel_order := true; sel_limit := true |}.

Definition countAllQuery : Sql :=
  SelectFrom {| sel_proj := CountStar; sel_from := FromProduct;
                sel_where := None; sel_order := false; sel_limit := false |}.

Definition pageAllQuery : Sql :=
  SelectFrom {| sel_proj := ProductStarBranchName;
                sel_from := FromProductJoinBranch;
                sel_where := None; sel_order := true; sel_limit := true |}.

(** *** Results and payloads *)

Record Pagination := {
  total_records : Num;
  current_page : Z;
  total_pages : Num;
  next_page : option Z;
  prev_page : option Z
}.

Record Page := {
  data : list Row;
  pagination : Pagination
}.

Inductive Teg := new | hit | sale.

Definition teg_text (t : Teg) : string :=
  match t with
  | new => "new"
  | hit => "hit"
  | sale => "sale"
  end.

(** The payload of [createProduct]. *)
Module Create.
Record data := {
  barcode : string;
  name : string;
  branch_id : Z;
  price : Z;
  stock : Z;
  category_id : Z;
  description : option string;
  real_price : Z;
  tegs : list Teg;
  imageUrls : option (list string)
}.
End Create.

(** The payload of [updateProduct]: every field is optional. *)
Module Update.
Record data := {
  barcode : option string;
  name : option string;
  branch_id : option Z;
  price : option Z;
  stock : option Z;
  real_price : option Z;
  category_id : option Z;
  description : option string;
  tegs : option (list Teg);
  imageUrls : option (list string)
}.
End Update.

(** [if (x !== undefined) updateData.key = f(x)] *)
Definition assign {A} (key : string) (f : A -> Val) (x : option A)
  (updateData : Row) : Row :=
  match x with
  | Some a => <[key := f a]> updateData
  | None => updateData
  end.

(** *** The methods of [ProductRepo] *)

(** The tail shared by the two listings: lines 112-127 and 134-152. *)
Definition paginate (page pageSize : Z) (totalRecords : Num)
  (data : list Row) : Page :=
  let totalPages := Js.ceilDiv totalRecords pageSize in
  let nextPage := if Js.ltNum page totalPages then Some (page + 1) else None in
  let prevPage := if 1 <? page then Some (page - 1) else None in
  {| data := data;
     pagination := {| total_records := totalRecords;
                      current_page := page;
                      total_pages := totalPages;
                      next_page := nextPage;
                      prev_page := prevPage |} |}.

(** [q && q.trim() !== ''] *)
Definition hasQuery (q : option string) : bool :=
  match q with
  | Some q => negb (Js.is_empty q) && negb (Js.is_empty (Js.trim q))
  | None => false
  end.

Definition getProducts (page pageSize : Z) (q : option string) : M Page :=
  let offset := (page - 1) * pageSize in
  results <-
    (if hasQuery q then
       let fullText := default EmptyString q in
       let ilikeText := Js.wrapPercent (default EmptyString q) in
       totalCountResult <-
         raw countSearchQuery [VStr fullText; VStr ilikeText; VStr ilikeText] ;;
       dataResult <-
         raw pageSearchQuery
           [VStr fullText; VStr ilikeText; VStr ilikeText;
            VNum pageSize; VNum offset] ;;
       ret (totalCountResult, dataResult)
     else
       totalCountResult <- raw countAllQuery [] ;;
       dataResult <- raw pageAllQuery [VNum pageSize; VNum offset] ;;
       ret (totalCountResult, dataResult)) ;;
  count <- firstCount (fst results) ;;
  let totalRecords := Js.parseInt count in
  ret (paginate page pageSize totalRecords (snd results)).

Definition selectAllProduct (page pageSize : Z) : M Page :=
  let offset := (page - 1) * pageSize in
  totalCountResult <- raw countAllQuery [] ;;
  count <- firstCount totalCountResult ;;
  let totalRecords := Js.parseInt count in
  dataResult <- raw selectAllProductQuery [VNum pageSize; VNum offset] ;;
  ret (paginate page pageSize totalRecords dataResult).

(** [res.rows[0]]: [None] is [undefined]. *)
Definition selectByIDProduct (barcode : string) : M (option Row) :=
  res <- raw selectByIDProductQuery [VStr barcode] ;;
  ret (head res).

Definition searchProduct (q : string) : M (list Row) :=
  let fullText := q in
  let ilikeText := Js.wrapPercent q in
  raw searchProductQuery [VStr fullText; VStr ilikeText; VStr ilikeText].

(** [x || null] on an optional string: [undefined] and [''] are falsy. *)
Definition orNull (x : option string) : Val :=
  match x with
  | Some s => if Js.is_empty s then VNull else VStr s
  | None => VNull
  end.

Definition imageArrayPg (d : Create.data) : Val :=
  match Create.imageUrls d with
  | Some urls =>
      if (length urls =? 0)%nat then VNull else VStr (Js.pgArray urls)
  | None => VNull
  end.

Definition tegsArrayPg (d : Create.data) : Val :=
  if (length (Create.tegs d) =? 0)%nat then VNull
  else VStr (Js.pgArray (map teg_text (Create.tegs d))).

Definition createBindings (d : Create.data) : list Val :=
  [VStr (Create.barcode d); VStr (Create.name d); VNum (Create.branch_id d);
   VNum (Create.price d); VNum (Create.stock d); VNum (Create.real_price d);
   VNum (Create.category_id d); orNull (Create.description d);
   tegsArrayPg d; imageArrayPg d].

Definition createProduct (d : Create.data) : M (option Row) :=
  res <- raw createProductQuery (createBindings d) ;;
  ret (head res).

(** The object built by lines 225-233, up to the [console.log]. *)
Definition updateDataHead (d : Update.data) : Row :=
  assign "tegs" (fun t => VArr (map teg_text t)) (Update.tegs d)
    (assign "real_price" VNum (Update.real_price d)
      (assign "stock" VNum (Update.stock d)
        (assign "price" VNum (Update.price d)
          (assign "branch_id" VNum (Update.branch_id d)
            (assign "name" VStr (Update.name d)
              (assign "barcode" VStr (Update.barcode d) ∅)))))).

(** The object as completed by lines 235-240. *)
Definition updateData (d : Update.data) : Row :=
  assign "image" (fun urls => VStr (Js.pgArray urls)) (Update.imageUrls d)
    (assign "description" VStr (Update.description d)
      (assign "category_id" VNum (Update.category_id d)
        (updateDataHead d))).

Definition noFields : string := "Hech qanday field yuborilmadi!".

Definition notFound (barcode : string) : string :=
  "Product with barcode " +:+ barcode +:+ " not found".

Definition updateProduct (barcode : string) (d : Update.data) : M Row :=
  consoleLog (updateDataHead d !! "tegs") ;;;
  let updateData := updateData d in
  if (size updateData =? 0)%nat then throw (JsError noFields)
  else
    rows <- knexUpdate barcode updateData ;;
    match rows with
    | [] => throw (JsError (notFound barcode))
    | updated :: _ => ret updated
    end.

Definition deleteProduct (barcode : string) : M (option Row) :=
  res <- raw deleteProductQuery [VStr barcode] ;;
  ret (head res).

End Repo.


(** ** The migration of the [admin] table

    [src/migrations/20250419085519_create_admin_table.ts].  The catalog
    of the server maps table names to tables; a statement with
    [IF NOT EXISTS] or [IF EXISTS] succeeds on every catalog. *)

Module Migration.

Inductive ColumnType :=
  | Serial
  | Varchar (n : nat).

Record Column := {
  column_name : string;
  column_type : ColumnType;
  primary_key : bool;
  not_null : bool;
  column_default : option Val
}.

Record Table := {
  columns : list Column;
  rows : list Row
}.

Abbreviation Catalog := (gmap string Table).

Inductive Ddl :=
  | CreateTableIfNotExists (name : string) (cols : list Column)
  | DropTableIfExists (name : string).

(** [knex.raw] on a schema statement. *)
Definition raw (s : Ddl) (c : Catalog) : Catalog :=
  match s with
  | CreateTableIfNotExists name cols =>
      match c !! name with
      | Some _ => c
      | None => <[name := {| columns := cols; rows := [] |}]> c
      end
  | DropTableIfExists name => delete name c
  end.

(** The column list of [CREATE TABLE IF NOT EXISTS admin(...)], as the
    server creates it: a primary key is not null. *)
Definition admin_columns : list Column :=
  [ {| column_name := "id"; column_type := Serial; primary_key := true;
       not_null := true; column_default := None |};
    {| column_name := "login"; column_type := Varchar 255;
       primary_key := false; not_null := true; column_default := None |};
    {| column_name := "password"; column_type := Varchar 255;
       primary_key := false; not_null := true; column_default := None |};
    {| column_name := "role"; column_type := Varchar 20;
       primary_key := false; not_null := false;
       column_default := Some (VStr "admin") |} ].

Definition up (c : Catalog) : Catalog :=
  raw (CreateTableIfNotExists "admin" admin_columns) c.

Definition down (c : Catalog) : Catalog :=
  raw (DropTableIfExists "admin") c.

End Migration.

(** ** Vocabulary of the specification *)

Module Spec.
Import Pg Repo.

Fixpoint all_chars (P : ascii -> bool) (s : string) : bool :=
  match s with
  | EmptyString => true
  | String c s' => P c && all_chars P s'
  end.

(** A query that is absent, empty, or white space only. *)
Definition blank (q : option string) : bool :=
  match q with
  | Some s => all_chars Js.is_space s
  | None => true
  end.

Definition no_backslash (q : string) : bool :=
  all_chars (fun c => negb (Ascii.eqb c "\")) q.


(** [q] occurs in [s], letter case aside. *)
Definition ci_substring (q s : string) : Prop :=
  exists pre post : string,
    lower_string s = pre +:+ lower_string q +:+ post.

(** The row [p] carries barcode [b]. *)
Definition has_barcode (b : string) (p : Row) : bool :=
  match p !! "barcode" with
  | Some (VStr s) => String.eqb s b
  | _ => false
  end.

(** No product carries barcode [b]. *)
Definition unknown (b : string) (d : Db) : bool :=
  forallb (fun p => negb (has_barcode b p)) (product d).

(** The branches a product row joins with. *)
Definition branches_of (d : Db) (p : Row) : list Row :=
  filter (fun b => Is_true (join_on p b)) (branch d).

(** Every product refers to exactly one branch. *)
Definition one_branch_each (d : Db) : bool :=
  forallb (fun p => (length (branches_of d p) =? 1)%nat) (product d).

(** A product row extended with the name of its branch. *)
Definition with_branch_name (d : Db) (p : Row) : Row :=
  <["branch_name" := default VNull (hd ∅ (branches_of d p) !! "name")]> p.

(** The window of a listing that page [page] shows. *)
Definition slice {A} (page pageSize : Z) (l : list A) : list A :=
  take (Z.to_nat pageSize) (drop (Z.to_nat ((page - 1) * pageSize)) l).

(** The three-way search condition on a product row, for the text [q]. *)
Definition matches (d : Db) (q : string) (p : Row) : bool :=
  match text_of p "name" with
  | Some n => ts_match d n q || ilike (Js.wrapPercent q) n
  | None => false
  end
  || match text_of p "barcode" with
     | Some b => ilike (Js.wrapPercent q) b
     | None => false
     end.

(** Products joined with their branch, all of them or those found by
    [q]. *)
Definition joined (d : Db) : list (Row * Row) := from FromProductJoinBranch d.

Definition found (d : Db) (q : string) : list (Row * Row) :=
  filter (fun r => Is_true (matches d q (fst r))) (joined d).

(** Newest first, with the branch name attached. *)
Definition listing (rows : list (Row * Row)) : list Row :=
  project ProductStarBranchName
    (order_desc (fun r => updated_at (fst r)) rows).

(** What [createProduct] has stored for a description: [NULL] when it is
    absent or empty. *)
Definition stored_description (x : option string) : Val :=
  match x with
  | Some (String c s) => VStr (String c s)
  | _ => VNull
  end.

(** What it has stored for the tags: [NULL] for none, else the list of
    their names. *)
Definition stored_tegs (ts : list Teg) : Val :=
  match ts with
  | [] => VNull
  | _ :: _ => VArr (map teg_text ts)
  end.

(** What it has stored for the image URLs: [NULL] for none, else the
    list the server reads from the literal written for them; [None] when
    the server refuses that literal. *)
Definition stored_image (urls : option (list string)) : option Val :=
  match urls with
  | None | Some [] => Some VNull
  | Some (u :: us) =>
      match PgArray.read (Js.pgArray (u :: us)) with
      | Some l => Some (VArr l)
      | None => None
      end
  end.

(** The row [createProduct] has stored when the server takes its values,
    over the defaults [dflt] of the columns it does not bind. *)
Definition new_row (d : Create.data) (dflt : Row) : option Row :=
  match stored_image (Create.imageUrls d) with
  | Some image =>
      Some ({[ "barcode" := VStr (Create.barcode d);
               "name" := VStr (Create.name d);
               "branch_id" := VNum (Create.branch_id d);
               "price" := VNum (Create.price d);
               "stock" := VNum (Create.stock d);
               "real_price" := VNum (Create.real_price d);
               "category_id" := VNum (Create.category_id d);
               "description" := stored_description (Create.description d);
               "tegs" := stored_tegs (Create.tegs d);
               "image" := image ]} ∪ dflt)
  | None => None
  end.

(** The update set of [updateProduct] as the columns keep it: the image
    literal is read as a list; [None] when the server refuses it. *)
Definition accepted_set (d : Update.data) : option Row :=
  match Update.imageUrls d with
  | None => Some (updateData d)
  | Some urls =>
      match PgArray.read (Js.pgArray urls) with
      | Some l => Some (<["image" := VArr l]> (updateData d))
      | None => None
      end
  end.

(** The product table with the rows of barcode [b] overwritten by
    [set], and with those rows removed. *)
Definition overwrite (b : string) (set : Row) (products : list Row) : list Row :=
  map (fun p => if has_barcode b p then set ∪ p else p) products.

Definition without (b : string) (products : list Row) : list Row :=
  filter (fun p => ~ Is_true (has_barcode b p)) products.

(** The rows of barcode [b]. *)
Definition carrying (b : string) (products : list Row) : list Row :=
  filter (fun p => Is_true (has_barcode b p)) products.

(** The same server with another product table. *)
Definition with_products (products : list Row) (d : Db) : Db :=
  {| product := products; branch := branch d;
     defaults := defaults d; ts_match := ts_match d; admits := admits d |}.

(** The rows [updateProduct] writes are all admitted beside the rows of
    other barcodes. *)
Definition update_admitted (b : string) (set : Row) (d : Db) : bool :=
  forallb (admits d (without b (product d)))
    (map (fun p => set ∪ p) (carrying b (product d))).

(** [ON branch.id = product.branch_id]: the product row [p] refers to the
    branch row [b]. *)
Definition refers_to (p b : Row) : Prop :=
  exists i : Z, b !! "id" = Some (VNum i) /\ p !! "branch_id" = Some (VNum i).

(** No two rows share a value of [updated_at], [NULL] included. *)
Fixpoint no_ties (l : list Row) : bool :=
  match l with
  | [] => true
  | x :: l' =>
      forallb (fun y => negb (desc_le (updated_at x) (updated_at y)
                             && desc_le (updated_at y) (updated_at x))) l'
      && no_ties l'
  end.


(** The world after [console.log(v)]. *)
Definition printed (v : option Val) (w : World) : World :=
  {| db := db w; trace := trace w; console := console w ++ [v] |}.

(** A payload of [updateProduct] without any of the ten fields. *)
Definition no_fields (d : Update.data) : bool :=
  match d with
  | Update.Build_data None None None None None None None None None None => true
  | _ => false
  end.

End Spec.


(** ** Vocabulary of the further properties *)

Module Terms.
Import Pg Repo Spec.

(** The rows of a listing result; none when the method threw. *)
Definition rows_of (r : Res Page) : list Row :=
  match r with
  | Ok p => data p
  | Throw _ => []
  end.

(** The pages 1 to [k] of a method, one after the other. *)
Definition pages_upto (k : nat) (method : Z -> Res Page) : list Row :=
  flat_map (fun i => rows_of (method (Z.of_nat i + 1))) (seq 0 k).

(** The order of [ORDER BY ... DESC] on a key: every element is not
    after the elements that follow it; [NULL] keys come first. *)
Fixpoint sorted_desc {A} (key : A -> option Z) (l : list A) : Prop :=
  match l with
  | [] => True
  | x :: l' =>
      Forall (fun y => Is_true (desc_le (key x) (key y))) l'
      /\ sorted_desc key l'
  end.

(** Rows with the most recently updated first. *)
Definition newest_first (l : list Row) : Prop := sorted_desc updated_at l.

(** The value [updateProduct] writes to a column, if any: the ten
    fields of the payload under their column names. *)
Definition payload_column (d : Update.data) (col : string) : option Val :=
  if String.eqb col "barcode" then VStr <$> Update.barcode d
  else if String.eqb col "name" then VStr <$> Update.name d
  else if String.eqb col "branch_id" then VNum <$> Update.branch_id d
  else if String.eqb col "price" then VNum <$> Update.price d
  else if String.eqb col "stock" then VNum <$> Update.stock d
  else if String.eqb col "real_price" then VNum <$> Update.real_price d
  else if String.eqb col "tegs"
  then (fun t => VArr (map teg_text t)) <$> Update.tegs d
  else if String.eqb col "category_id" then VNum <$> Update.category_id d
  else if String.eqb col "description" then VStr <$> Update.description d
  else if String.eqb col "image"
  then (fun urls => VStr (Js.pgArray urls)) <$> Update.imageUrls d
  else None.


End Terms.

(** ** Sample data *)

Module Sample.
Import Pg Repo.

Definition main_branch : Row :=
  {[ "id" := VNum 1; "name" := VStr "Main" ]}.

Definition milk : Row :=
  {[ "barcode" := VStr "001"; "name" := VStr "Milk 1L";
     "branch_id" := VNum 1; "tegs" := VArr ["hit"];
     "image" := VArr ["milk.png"];
     "updated_at" := VNum 5 ]}.

Definition bread : Row :=
  {[ "barcode" := VStr "002"; "name" := VStr "Bread";
     "branch_id" := VNum 1; "updated_at" := VNum 7 ]}.

(** A product whose name holds a backslash. *)
Definition slashed : Row :=
  {[ "barcode" := VStr "003"; "name" := VStr "a\b";
     "branch_id" := VNum 1; "updated_at" := VNum 9 ]}.

(** A product whose branch does not exist. *)
Definition orphan : Row :=
  {[ "barcode" := VStr "005"; "name" := VStr "Salt";
     "branch_id" := VNum 2; "updated_at" := VNum 3 ]}.

(** A unique key on [barcode]. *)
Definition unique_barcode (rows : list Row) (r : Row) : bool :=
  match r !! "barcode" with
  | Some (VStr b) => forallb (fun p => negb (Spec.has_barcode b p)) rows
  | _ => false
  end.

Definition shop (products : list Row) : World :=
  {| db := {| product := products; branch := [main_branch];
              defaults := {[ "updated_at" := VNum 10 ]};
              ts_match := fun _ _ => false;
              admits := unique_barcode |};
     trace := []; console := [] |}.



Definition nothing : Update.data :=
  {| Update.barcode := None; Update.name := None; Update.branch_id := None;
     Update.price := None; Update.stock := None; Update.real_price := None;
     Update.category_id := None; Update.description := None;
     Update.tegs := None; Update.imageUrls := None |}.

Definition price_only (p : Z) : Update.data :=
  {| Update.barcode := None; Update.name := None; Update.branch_id := None;
     Update.price := Some p; Update.stock := None; Update.real_price := None;
     Update.category_id := None; Update.description := None;
     Update.tegs := None; Update.imageUrls := None |}.

Definition arrays_only (tegs : list Teg) (urls : list string) : Update.data :=
  {| Update.barcode := None; Update.name := None; Update.branch_id := None;
     Update.price := None; Update.stock := None; Update.real_price := None;
     Update.category_id := None; Update.description := None;
     Update.tegs := Some tegs; Update.imageUrls := Some urls |}.

Definition juice (description : option string) (tegs : list Teg)
  (urls : option (list string)) : Create.data :=
  {| Create.barcode := "004"; Create.name := "Juice";
     Create.branch_id := 1; Create.price := 12; Create.stock := 3;
     Create.category_id := 2; Create.description := description;
     Create.real_price := 9; Create.tegs := tegs;
     Create.imageUrls := urls |}.

End Sample.

(** * Properties *)

(** ** Numerals and white space *)

Module JsFacts.
Import Js Spec Repo.

Lemma digit_char_ok (d : nat) :
  (d < 10)%nat ->
  is_digit (digit_char d) = true /\ digit_val (digit_char d) = Z.of_nat d
  /\ is_space (digit_char d) = false
  /\ digit_char d <> "-"%char /\ digit_char d <> "+"%char.
Proof.
  intros Hd.
  do 10 (destruct d as [|d]; [repeat split; try reflexivity; discriminate|]).
  lia.
Qed.

Lemma digits_le_spec (fuel n : nat) :
  (n < fuel)%nat ->
  value_le (digits_le fuel n) = Z.of_nat n
  /\ Forall (fun d => (d < 10)%nat) (digits_le fuel n)
  /\ digits_le fuel n <> [].
Proof.
  revert n. induction fuel as [|fuel IH]; intros n Hn; [lia|].
  cbn [digits_le]. destruct (Nat.ltb_spec n 10) as [Hlt|Hge].
  - simpl. repeat split; [lia | constructor; [lia | constructor] | discriminate].
  - assert (Hq : (n / 10 < fuel)%nat).
    { pose proof (Nat.div_lt n 10). lia. }
    destruct (IH _ Hq) as (Hv & Hall & _).
    repeat split; [| | discriminate].
    + unfold value_le in *. cbn [fold_right]. rewrite Hv.
      pose proof (Nat.div_mod_eq n 10). lia.
    + constructor; [|exact Hall].
      apply Nat.mod_upper_bound. lia.
Qed.

Lemma parse_digits_some (m : list nat) (a : Z) :
  Forall (fun d => (d < 10)%nat) m ->
  parse_digits (string_of_digits m) (Some a)
  = Some (fold_left (fun a d => 10 * a + Z.of_nat d) m a).
Proof.
  intros Hm. revert a. induction Hm as [|d m Hd _ IH]; intros a; [reflexivity|].
  destruct (digit_char_ok d Hd) as (Hdig & Hval & _).
  change (string_of_digits (d :: m))
    with (String (digit_char d) (string_of_digits m)).
  cbn [parse_digits]. rewrite Hdig, Hval. apply IH.
Qed.

Lemma fold_left_rev_value (ds : list nat) :
  fold_left (fun a d => 10 * a + Z.of_nat d) (rev ds) 0 = value_le ds.
Proof.
  induction ds as [|d ds IH]; [reflexivity|].
  simpl. rewrite fold_left_app. simpl. rewrite IH. lia.
Qed.

(** Reading back the decimal text of a count. *)
Lemma parseInt_decimal (n : nat) :
  parseInt (Some (VStr (decimal n))) = NInt (Z.of_nat n).
Proof.
  destruct (digits_le_spec (S n) n) as (Hv & Hall & Hne); [lia|].
  unfold parseInt, parseIntString, decimal.
  apply Forall_rev in Hall. rewrite <- fold_left_rev_value in Hv.
  destruct (rev (digits_le (S n) n)) as [|d m] eqn:Hrev.
  { apply (f_equal (@rev nat)) in Hrev. rewrite rev_involutive in Hrev.
    contradiction. }
  inversion Hall as [|? ? Hd Hm]; subst.
  destruct (digit_char_ok d Hd) as (Hdig & Hval & Hsp & Hminus & Hplus).
  cbn [string_of_digits fold_right trimStart]. rewrite Hsp.
  assert (Hparse :
    parse_digits (String (digit_char d) (string_of_digits m)) None
    = Some (Z.of_nat n)).
  { cbn [parse_digits]. rewrite Hdig, Hval.
    change (string_of_digits m) with (string_of_digits m).
    rewrite parse_digits_some by assumption.
    f_equal. rewrite <- Hv. reflexivity. }
  destruct (digit_char d) as [b0 b1 b2 b3 b4 b5 b6 b7] eqn:Hc.
  destruct b0, b1, b2, b3, b4, b5, b6, b7;
    try (exfalso; apply Hminus; reflexivity);
    try (exfalso; apply Hplus; reflexivity);
    (fold (string_of_digits m); rewrite Hparse; f_equal; lia).
Qed.

Lemma trimEnd_keeps (c : ascii) (s : string) :
  is_space c = false -> is_empty (trimEnd (String c s)) = false.
Proof.
  intros Hc. cbn [trimEnd]. destruct (trimEnd s); [rewrite Hc|]; reflexivity.
Qed.

(** [trim] leaves nothing exactly of the strings made of white space. *)
Lemma trim_empty (s : string) :
  is_empty (trim s) = all_chars is_space s.
Proof.
  unfold trim. induction s as [|c s IH]; [reflexivity|].
  cbn [trimStart all_chars]. destruct (is_space c) eqn:Hc; [exact IH|].
  apply trimEnd_keeps, Hc.
Qed.

Lemma hasQuery_blank (q : option string) : hasQuery q = negb (blank q).
Proof.
  destruct q as [s|]; [|reflexivity].
  unfold hasQuery, blank. rewrite trim_empty.
  destruct s; [reflexivity|]. reflexivity.
Qed.

(** [Math.ceil(n / size)] is the least number of pages of [size] rows
    that hold [n] rows. *)
Lemma ceilDiv_pages (n size : Z) :
  0 < size ->
  exists k, ceilDiv (NInt n) size = NInt k
            /\ (k - 1) * size < n <= k * size.
Proof.
  intros Hs. exists (- ((- n) / size)). split.
  - unfold ceilDiv. destruct (Z.eqb_spec size 0); [lia|reflexivity].
  - pose proof (Z.div_mod (- n) size ltac:(lia)) as Hdm.
    pose proof (Z.mod_pos_bound (- n) size Hs) as Hb.
    nia.
Qed.

End JsFacts.

(** ** [ILIKE] with a pattern between two percent signs *)

Module LikeFacts.
Import Pg Spec.

Lemma append_cons (c : ascii) (s t : string) :
  String c s +:+ t = String c (s +:+ t).
Proof. reflexivity. Qed.

Lemma like_percent (p s : string) :
  like (String "%" p) s
  = like p s
    || match s with
       | EmptyString => false
       | String _ s' => like (String "%" p) s'
       end.
Proof. destruct s; reflexivity. Qed.

Lemma like_percent_here (p s : string) :
  like p s = true -> like (String "%" p) s = true.
Proof. intros H. rewrite like_percent, H. reflexivity. Qed.

Lemma like_percent_later (p pre s : string) :
  like (String "%" p) s = true -> like (String "%" p) (pre +:+ s) = true.
Proof.
  intros H. induction pre as [|c pre IH]; [exact H|].
  rewrite append_cons, like_percent, IH.
  apply orb_true_r.
Qed.

Lemma like_percent_all (s : string) : like "%" s = true.
Proof.
  induction s as [|c s IH]; [reflexivity|].
  rewrite like_percent, IH. apply orb_true_r.
Qed.

(** Without a backslash every character of the pattern admits itself:
    a letter matches the same letter, [_] and [%] match anything. *)
Lemma like_self_prefix (q p s : string) :
  no_backslash q = true ->
  like p s = true -> like (q +:+ p) (q +:+ s) = true.
Proof.
  intros Hq Hps. induction q as [|c q IH]; [exact Hps|].
  cbn [no_backslash all_chars] in Hq.
  apply andb_true_iff in Hq as [Hc Hq]. specialize (IH Hq).
  rewrite !append_cons.
  destruct (Ascii.eqb c "%") eqn:Epc.
  { apply Ascii.eqb_eq in Epc. subst c.
    rewrite like_percent. apply orb_true_iff. right.
    apply like_percent_here, IH. }
  cbn [like]. rewrite Epc.
  destruct (Ascii.eqb c "_") eqn:Eus; [exact IH|].
  apply negb_true_iff in Hc. rewrite Hc.
  rewrite Ascii.eqb_refl. exact IH.
Qed.

Lemma lower_string_app (s t : string) :
  lower_string (s +:+ t) = lower_string s +:+ lower_string t.
Proof.
  induction s as [|c s IH]; [reflexivity|].
  rewrite append_cons. cbn [lower_string]. rewrite IH, append_cons. reflexivity.
Qed.

Lemma lower_backslash (c : ascii) :
  Ascii.eqb (lower c) "\" = Ascii.eqb c "\".
Proof.
  destruct c as [b0 b1 b2 b3 b4 b5 b6 b7].
  destruct b0, b1, b2, b3, b4, b5, b6, b7; reflexivity.
Qed.

Lemma no_backslash_lower (q : string) :
  no_backslash (lower_string q) = no_backslash q.
Proof.
  induction q as [|c q IH]; [reflexivity|].
  cbn [lower_string]. unfold no_backslash in *. cbn [all_chars].
  rewrite lower_backslash, IH. reflexivity.
Qed.

(** The substring search the repository asks for, when [q] holds no
    backslash. *)
Lemma ilike_substring (q s : string) :
  no_backslash q = true ->
  ci_substring q s -> ilike (Js.wrapPercent q) s = true.
Proof.
  intros Hq (pre & post & Hs).
  unfold ilike, Js.wrapPercent.
  rewrite !lower_string_app, Hs.
  change (lower_string "%") with "%"%string.
  change ("%" +:+ lower_string q +:+ "%")
    with (String "%" (lower_string q +:+ "%")).
  apply like_percent_later, like_percent_here.
  apply like_self_prefix.
  - rewrite no_backslash_lower. exact Hq.
  - apply like_percent_all.
Qed.

End LikeFacts.

(** ** The statements, evaluated *)

Module PgFacts.
Import Pg Spec.

Lemma insert_desc_map {A B} (key : B -> option Z) (f : A -> B) x l :
  insert_desc key (f x) (map f l)
  = map f (insert_desc (fun a => key (f a)) x l).
Proof.
  induction l as [|y l IH]; [reflexivity|].
  cbn [map insert_desc]. destruct (desc_le (key (f x)) (key (f y))).
  - reflexivity.
  - rewrite IH. reflexivity.
Qed.

(** Sorting commutes with a map that the key looks through. *)
Lemma order_desc_map {A B} (key : B -> option Z) (f : A -> B) l :
  order_desc key (map f l) = map f (order_desc (fun a => key (f a)) l).
Proof.
  unfold order_desc. induction l as [|x l IH]; [reflexivity|].
  cbn [map fold_right]. rewrite IH. apply insert_desc_map.
Qed.

Lemma eval_where_matches (d : Db) (q : string) (p : Row) :
  eval_where d
    [(TsNameMatch, VStr q); (NameILike, VStr (Js.wrapPercent q));
     (BarcodeILike, VStr (Js.wrapPercent q))] p
  = matches d q p.
Proof.
  unfold eval_where, matches, eval_atom. cbn [existsb].
  destruct (text_of p "name"), (text_of p "barcode");
    rewrite ?orb_false_r, ?orb_assoc; reflexivity.
Qed.

Lemma eval_where_barcode (d : Db) (b : string) (p : Row) :
  eval_where d [(BarcodeEq, VStr b)] p = has_barcode b p.
Proof.
  unfold eval_where, has_barcode, eval_atom, text_of. cbn [existsb].
  rewrite orb_false_r. destruct (p !! "barcode") as [[]|]; reflexivity.
Qed.

Lemma eval_atom_barcode (d : Db) (b : string) (p : Row) :
  eval_atom d BarcodeEq (VStr b) p = has_barcode b p.
Proof.
  unfold has_barcode, eval_atom, text_of.
  destruct (p !! "barcode") as [[]|]; reflexivity.
Qed.

Lemma filter_matches (d : Db) (q : string) (rows : list (Row * Row)) :
  filter (fun r => Is_true
    (eval_where d
       [(TsNameMatch, VStr q); (NameILike, VStr (Js.wrapPercent q));
        (BarcodeILike, VStr (Js.wrapPercent q))] (fst r))) rows
  = filter (fun r => Is_true (matches d q (fst r))) rows.
Proof.
  apply list_filter_iff. intros r. rewrite eval_where_matches. reflexivity.
Qed.

(** [SELECT COUNT( * ) FROM product] *)
Lemma count_all (d : Db) :
  run_select {| sel_proj := CountStar; sel_from := FromProduct;
                sel_where := None; sel_order := false; sel_limit := false |}
    [] d
  = inr [ {[ "count" := VStr (Js.decimal (length (product d))) ]} ].
Proof.
  unfold run_select. cbn [sel_where sel_from sel_order sel_proj sel_limit
    default from_option id bind_atoms from project]. rewrite length_map. reflexivity.
Qed.

(** The listing statement of [getProducts] without a search text. *)
Lemma page_all (d : Db) (page pageSize : Z) :
  0 <= pageSize -> 0 <= (page - 1) * pageSize ->
  run_select {| sel_proj := ProductStarBranchName;
                sel_from := FromProductJoinBranch;
                sel_where := None; sel_order := true; sel_limit := true |}
    [VNum pageSize; VNum ((page - 1) * pageSize)] d
  = inr (slice page pageSize (listing (joined d))).
Proof.
  intros Hs Ho. unfold run_select.
  cbn [sel_where sel_from sel_order sel_proj sel_limit default from_option id bind_atoms].
  destruct (Z.ltb_spec pageSize 0); [lia|].
  destruct (Z.ltb_spec ((page - 1) * pageSize) 0); [lia|].
  reflexivity.
Qed.

(** [selectAllProductQuery] *)
Lemma page_products (d : Db) (page pageSize : Z) :
  0 <= pageSize -> 0 <= (page - 1) * pageSize ->
  run_select {| sel_proj := ProductStar; sel_from := FromProduct;
                sel_where := None; sel_order := true; sel_limit := true |}
    [VNum pageSize; VNum ((page - 1) * pageSize)] d
  = inr (slice page pageSize (order_desc updated_at (product d))).
Proof.
  intros Hs Ho. unfold run_select.
  cbn [sel_where sel_from sel_order sel_proj sel_limit default from_option id bind_atoms].
  destruct (Z.ltb_spec pageSize 0); [lia|].
  destruct (Z.ltb_spec ((page - 1) * pageSize) 0); [lia|].
  cbn [from project].
  rewrite (order_desc_map (fun r : Row * Row => updated_at (fst r))
             (fun p : Row => (p, (∅ : Row)))).
  rewrite map_map. cbn [fst]. rewrite map_id. reflexivity.
Qed.

(** The two search statements of [getProducts]. *)
Lemma count_search (d : Db) (q : string) :
  run_select {| sel_proj := CountStar; sel_from := FromProductJoinBranch;
                sel_where := Some [TsNameMatch; NameILike; BarcodeILike];
                sel_order := false; sel_limit := false |}
    [VStr q; VStr (Js.wrapPercent q); VStr (Js.wrapPercent q)] d
  = inr [ {[ "count" := VStr (Js.decimal (length (found d q))) ]} ].
Proof.
  unfold run_select.
  cbn [sel_where sel_from sel_order sel_proj sel_limit default from_option id bind_atoms].
  rewrite filter_matches. reflexivity.
Qed.

Lemma page_search (d : Db) (q : string) (page pageSize : Z) :
  0 <= pageSize -> 0 <= (page - 1) * pageSize ->
  run_select {| sel_proj := ProductStarBranchName;
                sel_from := FromProductJoinBranch;
                sel_where := Some [TsNameMatch; NameILike; BarcodeILike];
                sel_order := true; sel_limit := true |}
    [VStr q; VStr (Js.wrapPercent q); VStr (Js.wrapPercent q);
     VNum pageSize; VNum ((page - 1) * pageSize)] d
  = inr (slice page pageSize (listing (found d q))).
Proof.
  intros Hs Ho. unfold run_select.
  cbn [sel_where sel_from sel_order sel_proj sel_limit default from_option id bind_atoms].
  destruct (Z.ltb_spec pageSize 0); [lia|].
  destruct (Z.ltb_spec ((page - 1) * pageSize) 0); [lia|].
  rewrite filter_matches. reflexivity.
Qed.

(** [searchProductQuery] *)
Lemma search_rows (d : Db) (q : string) :
  run_select {| sel_proj := ProductStarBranchName;
                sel_from := FromProductJoinBranch;
                sel_where := Some [TsNameMatch; NameILike; BarcodeILike];
                sel_order := false; sel_limit := false |}
    [VStr q; VStr (Js.wrapPercent q); VStr (Js.wrapPercent q)] d
  = inr (project ProductStarBranchName (found d q)).
Proof.
  unfold run_select.
  cbn [sel_where sel_from sel_order sel_proj sel_limit default from_option id bind_atoms].
  rewrite filter_matches. reflexivity.
Qed.

(** [selectByIDProductQuery] *)
Lemma rows_by_barcode (d : Db) (b : string) :
  run_select {| sel_proj := ProductStar; sel_from := FromProduct;
                sel_where := Some [BarcodeEq];
                sel_order := false; sel_limit := false |} [VStr b] d
  = inr (filter (fun p => Is_true (has_barcode b p)) (product d)).
Proof.
  unfold run_select.
  cbn [sel_where sel_from sel_order sel_proj sel_limit default from_option id bind_atoms
       from project].
  f_equal. induction (product d) as [|p l IH]; [reflexivity|].
  cbn [map]. rewrite !filter_cons. cbn [fst].
  rewrite eval_where_barcode.
  destruct (decide (Is_true (has_barcode b p))); cbn [map]; rewrite IH; reflexivity.
Qed.

End PgFacts.

(** ** The methods, run *)

Module RepoFacts.
Import Pg Spec Repo PgFacts.

Lemma raw_select (q : Select) (b : list Val) (w : World) :
  raw (SelectFrom q) b w
  = match run_select q b (db w) with
    | inr rows => (Ok rows, record (Raw (SelectFrom q) b) w)
    | inl e => (Throw (PgError e), record (Raw (SelectFrom q) b) w)
    end.
Proof. reflexivity. Qed.

Lemma count_row (n : nat) (rest : list Row) (w : World) :
  firstCount ({[ "count" := VStr (Js.decimal n) ]} :: rest) w
  = (Ok (Some (VStr (Js.decimal n))), w).
Proof. unfold firstCount, ret. rewrite lookup_singleton_eq. reflexivity. Qed.

(** [getProducts] without a search text: two statements, and the page. *)
Lemma getProducts_listing (page pageSize : Z) (q : option string) (w : World) :
  blank q = true -> 0 <= pageSize -> 0 <= (page - 1) * pageSize ->
  getProducts page pageSize q w
  = (Ok (paginate page pageSize (NInt (Z.of_nat (length (product (db w)))))
           (slice page pageSize (listing (joined (db w))))),
     record (Raw pageAllQuery [VNum pageSize; VNum ((page - 1) * pageSize)])
       (record (Raw countAllQuery []) w)).
Proof.
  intros Hq Hs Ho. unfold getProducts.
  rewrite JsFacts.hasQuery_blank, Hq. cbn [negb].
  unfold bind, countAllQuery, pageAllQuery.
  rewrite raw_select, count_all.
  rewrite raw_select. cbn [db record].
  rewrite page_all by assumption.
  cbn [ret fst snd]. rewrite count_row, JsFacts.parseInt_decimal.
  reflexivity.
Qed.

(** [getProducts] with a search text. *)
Lemma getProducts_search (page pageSize : Z) (q : string) (w : World) :
  blank (Some q) = false -> 0 <= pageSize -> 0 <= (page - 1) * pageSize ->
  getProducts page pageSize (Some q) w
  = (Ok (paginate page pageSize (NInt (Z.of_nat (length (found (db w) q))))
           (slice page pageSize (listing (found (db w) q)))),
     record (Raw pageSearchQuery
               [VStr q; VStr (Js.wrapPercent q); VStr (Js.wrapPercent q);
                VNum pageSize; VNum ((page - 1) * pageSize)])
       (record (Raw countSearchQuery
                  [VStr q; VStr (Js.wrapPercent q); VStr (Js.wrapPercent q)])
          w)).
Proof.
  intros Hq Hs Ho. unfold getProducts.
  rewrite JsFacts.hasQuery_blank, Hq. cbn [negb default].
  unfold bind, countSearchQuery, pageSearchQuery.
  rewrite raw_select, count_search.
  rewrite raw_select. cbn [db record].
  rewrite page_search by assumption.
  cbn [ret fst snd]. rewrite count_row, JsFacts.parseInt_decimal.
  reflexivity.
Qed.

Lemma selectAllProduct_run (page pageSize : Z) (w : World) :
  0 <= pageSize -> 0 <= (page - 1) * pageSize ->
  selectAllProduct page pageSize w
  = (Ok (paginate page pageSize (NInt (Z.of_nat (length (product (db w)))))
           (slice page pageSize (order_desc updated_at (product (db w))))),
     record (Raw selectAllProductQuery
               [VNum pageSize; VNum ((page - 1) * pageSize)])
       (record (Raw countAllQuery []) w)).
Proof.
  intros Hs Ho. unfold selectAllProduct.
  unfold bind, countAllQuery, selectAllProductQuery.
  rewrite raw_select, count_all.
  rewrite count_row, JsFacts.parseInt_decimal.
  rewrite raw_select. cbn [db record].
  rewrite page_products by assumption.
  reflexivity.
Qed.

Lemma searchProduct_run (q : string) (w : World) :
  searchProduct q w
  = (Ok (project ProductStarBranchName (found (db w) q)),
     record (Raw searchProductQuery
               [VStr q; VStr (Js.wrapPercent q); VStr (Js.wrapPercent q)]) w).
Proof.
  unfold searchProduct, searchProductQuery.
  rewrite raw_select, search_rows. reflexivity.
Qed.

Lemma selectByIDProduct_run (b : string) (w : World) :
  selectByIDProduct b w
  = (Ok (head (filter (fun p => Is_true (has_barcode b p)) (product (db w)))),
     record (Raw selectByIDProductQuery [VStr b]) w).
Proof.
  unfold selectByIDProduct, selectByIDProductQuery, bind.
  rewrite raw_select, rows_by_barcode. reflexivity.
Qed.

Lemma offset_nonneg (page pageSize : Z) :
  1 <= page -> 1 <= pageSize -> 0 <= (page - 1) * pageSize.
Proof. intros. apply Z.mul_nonneg_nonneg; lia. Qed.

End RepoFacts.

(** ** Array literals *)

Module ArrayFacts.
Import Js Spec Repo LikeFacts.

Lemma append_assoc (a b c : string) : (a +:+ b) +:+ c = a +:+ b +:+ c.
Proof.
  induction a as [|x a IH]; [reflexivity|].
  rewrite !append_cons, IH. reflexivity.
Qed.

Lemma append_empty_r (a : string) : a +:+ EmptyString = a.
Proof.
  induction a as [|x a IH]; [reflexivity|].
  rewrite append_cons, IH. reflexivity.
Qed.

Lemma read_element (x rest e : string) (acc : list string) :
  PgArray.clean x = true ->
  PgArray.read_from (PgArray.Inside e) acc (x +:+ rest)
  = PgArray.read_from (PgArray.Inside (e +:+ x)) acc rest.
Proof.
  revert e. induction x as [|c x IH]; intros e Hx.
  - rewrite append_empty_r. reflexivity.
  - cbn [PgArray.clean] in Hx.
    apply andb_true_iff in Hx as [Hc Hx]. apply andb_true_iff in Hc as [Hq Hb].
    apply negb_true_iff in Hq, Hb.
    rewrite append_cons. cbn [PgArray.read_from]. rewrite Hq, Hb.
    rewrite IH by exact Hx. unfold PgArray.snoc.
    rewrite append_assoc. reflexivity.
Qed.

Lemma read_quoted (x rest : string) (acc : list string) (m : PgArray.Mode) :
  m = PgArray.Opened \/ m = PgArray.Comma ->
  PgArray.clean x = true ->
  PgArray.read_from m acc (Js.quoted x +:+ rest)
  = PgArray.read_from PgArray.After (acc ++ [x]) rest.
Proof.
  intros Hm Hx. unfold Js.quoted, Js.dquote.
  rewrite !append_assoc, append_cons.
  change (EmptyString +:+ x +:+ String "034" EmptyString +:+ rest)
    with (x +:+ String "034" rest).
  assert (Hopen :
    PgArray.read_from m acc (String "034" (x +:+ String "034" rest))
    = PgArray.read_from (PgArray.Inside EmptyString) acc
        (x +:+ String "034" rest)).
  { destruct Hm as [-> | ->]; reflexivity. }
  rewrite Hopen, read_element by exact Hx. reflexivity.
Qed.

Lemma join_tail (x : string) (xs : list string) :
  String.concat "," (map Js.quoted (x :: xs)) +:+ "}"
  = Js.quoted x +:+ PgArray.tail_text xs.
Proof.
  revert x. induction xs as [|y xs IH]; intros x; [reflexivity|].
  change (String.concat "," (map Js.quoted (x :: y :: xs)))
    with (Js.quoted x +:+ "," +:+ String.concat "," (map Js.quoted (y :: xs))).
  rewrite !append_assoc, IH. reflexivity.
Qed.

Lemma pgArray_shape (x : string) (xs : list string) :
  Js.pgArray (x :: xs) = "{" +:+ Js.quoted x +:+ PgArray.tail_text xs.
Proof. unfold Js.pgArray. rewrite join_tail. reflexivity. Qed.

Lemma read_tail (xs acc : list string) :
  forallb PgArray.clean xs = true ->
  PgArray.read_from PgArray.After acc (PgArray.tail_text xs) = Some (acc ++ xs).
Proof.
  revert acc. induction xs as [|x xs IH]; intros acc Hxs.
  - rewrite app_nil_r. reflexivity.
  - cbn [forallb] in Hxs. apply andb_true_iff in Hxs as [Hx Hxs].
    cbn [PgArray.tail_text]. rewrite append_cons.
    change (EmptyString +:+ Js.quoted x +:+ PgArray.tail_text xs)
      with (Js.quoted x +:+ PgArray.tail_text xs).
    cbn [PgArray.read_from Ascii.eqb Bool.eqb].
    rewrite read_quoted by (auto || exact Hx).
    rewrite IH by exact Hxs. rewrite <- app_assoc. reflexivity.
Qed.

(** The literal written for a list of clean elements reads back as that
    list. *)
Lemma read_pgArray (xs : list string) :
  forallb PgArray.clean xs = true ->
  PgArray.read (Js.pgArray xs) = Some xs.
Proof.
  destruct xs as [|x xs]; [reflexivity|]. intros Hxs.
  cbn [forallb] in Hxs. apply andb_true_iff in Hxs as [Hx Hxs].
  rewrite pgArray_shape. unfold PgArray.read.
  rewrite append_cons.
  change (EmptyString +:+ Js.quoted x +:+ PgArray.tail_text xs)
    with (Js.quoted x +:+ PgArray.tail_text xs).
  cbn [PgArray.read_from Ascii.eqb Bool.eqb].
  rewrite read_quoted by (auto || exact Hx).
  apply read_tail, Hxs.
Qed.

Lemma teg_texts_clean (ts : list Teg) :
  forallb PgArray.clean (map teg_text ts) = true.
Proof.
  induction ts as [|t ts IH]; [reflexivity|].
  cbn [map forallb]. rewrite IH. destruct t; reflexivity.
Qed.

Lemma quoted_shape (x : string) :
  Js.quoted x = String "034" (x +:+ String "034" EmptyString).
Proof. reflexivity. Qed.

Lemma read_empty_literal : PgArray.read (Js.pgArray []) = Some [].
Proof. reflexivity. Qed.

Lemma read_teg_texts (ts : list Teg) :
  PgArray.read (Js.pgArray (map teg_text ts)) = Some (map teg_text ts).
Proof. apply read_pgArray, teg_texts_clean. Qed.

End ArrayFacts.

(** ** Writing statements, evaluated *)

Module WriteFacts.
Import Pg Spec Repo PgFacts RepoFacts ArrayFacts.

Lemma unknown_carrying (b : string) (d : Db) :
  unknown b d = true -> carrying b (product d) = [].
Proof.
  unfold unknown, carrying. induction (product d) as [|p l IH]; [reflexivity|].
  cbn [forallb]. intros H. apply andb_true_iff in H as [Hp Hl].
  rewrite filter_cons. apply negb_true_iff in Hp.
  destruct (decide (Is_true (has_barcode b p))) as [Hb|Hb].
  - rewrite Hp in Hb. destruct Hb.
  - apply IH, Hl.
Qed.

Lemma unknown_without (b : string) (d : Db) :
  unknown b d = true -> without b (product d) = product d.
Proof.
  unfold unknown, without. induction (product d) as [|p l IH]; [reflexivity|].
  cbn [forallb]. intros H. apply andb_true_iff in H as [Hp Hl].
  rewrite filter_cons. apply negb_true_iff in Hp.
  destruct (decide (~ Is_true (has_barcode b p))) as [Hb|Hb].
  - rewrite IH by exact Hl. reflexivity.
  - exfalso. apply Hb. rewrite Hp. intros [].
Qed.



Lemma run_delete_barcode (b : string) (d : Db) :
  run_delete [BarcodeEq] [VStr b] d
  = inr (carrying b (product d), with_products (without b (product d)) d).
Proof.
  unfold run_delete, carrying, without, with_products. cbn [bind_atoms].
  do 2 f_equal.
  - apply list_filter_iff. intros p. rewrite eval_where_barcode. reflexivity.
  - f_equal. apply list_filter_iff. intros p.
    rewrite eval_where_barcode. reflexivity.
Qed.

Lemma deleteProduct_run (b : string) (w : World) :
  deleteProduct b w
  = (Ok (head (carrying b (product (db w)))),
     with_db (with_products (without b (product (db w))) (db w))
       (record (Raw deleteProductQuery [VStr b]) w)).
Proof.
  unfold deleteProduct, deleteProductQuery, bind, raw. cbn [db record].
  rewrite run_delete_barcode. reflexivity.
Qed.

(** What the array columns keep of the values [createProduct] binds. *)
Lemma array_in_tegs (d : Create.data) :
  array_in (tegsArrayPg d) = Some (stored_tegs (Create.tegs d)).
Proof.
  unfold tegsArrayPg, stored_tegs.
  destruct (Create.tegs d) as [|t ts] eqn:Ht; [reflexivity|].
  change (length (t :: ts) =? 0)%nat with false. cbn [array_in].
  rewrite read_teg_texts. reflexivity.
Qed.

Lemma array_in_image (d : Create.data) :
  array_in (imageArrayPg d) = stored_image (Create.imageUrls d).
Proof.
  unfold imageArrayPg, stored_image.
  destruct (Create.imageUrls d) as [[|u us]|]; reflexivity.
Qed.

Lemma orNull_stored (x : option string) : orNull x = stored_description x.
Proof. destruct x as [[|c s]|]; reflexivity. Qed.

(** The bound values, as the columns keep them, make the new row. *)
Lemma store_bindings (d : Create.data) (dflt : Row) :
  match store (list_to_map
                 (zip ["barcode"; "name"; "branch_id"; "price"; "stock";
                       "real_price"; "category_id"; "description"; "tegs";
                       "image"]%string (createBindings d))) with
  | Some bound => Some (bound ∪ dflt)
  | None => None
  end = new_row d dflt.
Proof.
  unfold store, array_columns, createBindings, new_row.
  cbn [fold_right zip zip_with list_to_map foldr fst snd uncurry].
  unfold store_column at 1.
  rewrite !lookup_insert_ne by done. rewrite lookup_insert_eq.
  rewrite array_in_image.
  destruct (stored_image (Create.imageUrls d)) as [img|]; [|reflexivity].
  unfold store_column.
  rewrite !lookup_insert_ne by done. rewrite lookup_insert_eq.
  rewrite array_in_tegs, orNull_stored.
  reflexivity.
Qed.

Lemma createProduct_run (d : Create.data) (w : World) :
  createProduct d w
  = match new_row d (defaults (db w)) with
    | None =>
        (Throw (PgError MalformedArray),
         record (Raw createProductQuery (createBindings d)) w)
    | Some r =>
        if admits (db w) (product (db w)) r
        then (Ok (Some r),
              with_db (with_products (product (db w) ++ [r]) (db w))
                (record (Raw createProductQuery (createBindings d)) w))
        else (Throw (PgError ConstraintViolation),
              record (Raw createProductQuery (createBindings d)) w)
    end.
Proof.
  rewrite <- store_bindings.
  unfold createProduct, createProductQuery, bind, raw, run_insert.
  cbn [db record length createBindings Nat.eqb].
  destruct (store _) as [bound|]; [|reflexivity].
  destruct (admits (db w) (product (db w)) (bound ∪ defaults (db w)));
    reflexivity.
Qed.

Lemma run_update_barcode (b : string) (set : Row) (d : Db) :
  run_update b set d
  = match store set with
    | None => inl MalformedArray
    | Some set' =>
        if update_admitted b set' d
        then inr (map (fun p => set' ∪ p) (carrying b (product d)),
                  with_products (overwrite b set' (product d)) d)
        else inl ConstraintViolation
    end.
Proof.
  unfold run_update. destruct (store set) as [set'|]; [|reflexivity].
  unfold update_admitted, carrying, without, overwrite.
  rewrite (list_filter_iff
             (fun p => Is_true (eval_atom d BarcodeEq (VStr b) p))
             (fun p => Is_true (has_barcode b p)))
    by (intros p; rewrite eval_atom_barcode; reflexivity).
  rewrite (list_filter_iff
             (fun p => ~ Is_true (eval_atom d BarcodeEq (VStr b) p))
             (fun p => ~ Is_true (has_barcode b p)))
    by (intros p; rewrite eval_atom_barcode; reflexivity).
  destruct (forallb _ _); [|reflexivity].
  f_equal. f_equal. unfold set_product, with_products. f_equal.
  apply map_ext. intros p. rewrite eval_atom_barcode. reflexivity.
Qed.

(** *** What a created row holds *)

Ltac lookup_row :=
  apply lookup_union_Some_l;
  repeat (rewrite lookup_insert_ne by done);
  first [apply lookup_insert_eq | apply lookup_singleton_eq].

Ltac new_row_column H :=
  unfold new_row in H;
  destruct (stored_image _) as [img|]; [|discriminate H];
  injection H as <-; lookup_row.

Lemma new_row_barcode (d : Create.data) (dflt r : Row) :
  new_row d dflt = Some r -> r !! "barcode" = Some (VStr (Create.barcode d)).
Proof. intros H. new_row_column H. Qed.

Lemma new_row_description (d : Create.data) (dflt r : Row) :
  new_row d dflt = Some r ->
  r !! "description" = Some (stored_description (Create.description d)).
Proof. intros H. new_row_column H. Qed.

Lemma new_row_tegs (d : Create.data) (dflt r : Row) :
  new_row d dflt = Some r ->
  r !! "tegs" = Some (stored_tegs (Create.tegs d)).
Proof. intros H. new_row_column H. Qed.

Lemma new_row_image (d : Create.data) (dflt r : Row) :
  new_row d dflt = Some r ->
  r !! "image" = stored_image (Create.imageUrls d).
Proof.
  intros H. unfold new_row in H.
  destruct (stored_image _) as [img|]; [|discriminate H].
  injection H as <-. lookup_row.
Qed.

(** A call of [createProduct] that returns a row has stored that row. *)
Lemma createProduct_ok (d : Create.data) (w : World) (r : Row) :
  fst (createProduct d w) = Ok (Some r) ->
  new_row d (defaults (db w)) = Some r
  /\ admits (db w) (product (db w)) r = true
  /\ db (snd (createProduct d w))
     = with_products (product (db w) ++ [r]) (db w).
Proof.
  rewrite createProduct_run.
  destruct (new_row d (defaults (db w))) as [r'|]; [|discriminate].
  destruct (admits (db w) (product (db w)) r') eqn:Ha; [|discriminate].
  cbn [fst snd with_db db]. intros H. injection H as <-.
  split; [reflexivity|]. split; [exact Ha | reflexivity].
Qed.

(** It returns a row or raises the server's error. *)
Lemma createProduct_cases (d : Create.data) (w : World) :
  (exists e : DbError, fst (createProduct d w) = Throw (PgError e))
  \/ exists r : Row, fst (createProduct d w) = Ok (Some r).
Proof.
  rewrite createProduct_run.
  destruct (new_row d (defaults (db w))) as [r|]; [|left; eexists; reflexivity].
  destruct (admits (db w) (product (db w)) r).
  - right. exists r. reflexivity.
  - left. eexists. reflexivity.
Qed.

Lemma createProduct_admitted (d : Create.data) (w : World) (r : Row) :
  new_row d (defaults (db w)) = Some r ->
  admits (db w) (product (db w)) r = true ->
  fst (createProduct d w) = Ok (Some r).
Proof.
  intros Hr Ha. rewrite createProduct_run, Hr, Ha. reflexivity.
Qed.

Lemma createProduct_trace (d : Create.data) (w : World) :
  trace (snd (createProduct d w))
  = trace w ++ [Raw createProductQuery (createBindings d)].
Proof.
  rewrite createProduct_run.
  destruct (new_row d (defaults (db w))) as [r|]; [|reflexivity].
  destruct (admits (db w) (product (db w)) r); reflexivity.
Qed.

Lemma carrying_app (b : string) (l1 l2 : list Row) :
  carrying b (l1 ++ l2) = carrying b l1 ++ carrying b l2.
Proof. apply filter_app. Qed.

(** Reading back what was just created, when the barcode was free. *)
Lemma create_then_select (d : Create.data) (w : World) (r : Row) :
  fst (createProduct d w) = Ok (Some r) ->
  unknown (Create.barcode d) (db w) = true ->
  fst (selectByIDProduct (Create.barcode d) (snd (createProduct d w)))
  = Ok (Some r).
Proof.
  intros Hr Hb. apply createProduct_ok in Hr as (Hn & _ & Hdb).
  rewrite selectByIDProduct_run, Hdb.
  cbn [fst with_products product].
  fold (carrying (Create.barcode d) (product (db w) ++ [r])).
  rewrite carrying_app, unknown_carrying by exact Hb.
  unfold carrying. rewrite filter_cons, filter_nil.
  unfold has_barcode. rewrite (new_row_barcode d _ r Hn), String.eqb_refl.
  reflexivity.
Qed.

End WriteFacts.

(** ** [updateProduct], run *)

Module UpdateFacts.
Import Pg Spec Repo PgFacts RepoFacts ArrayFacts WriteFacts.

Lemma assign_empty {A} (key : string) (f : A -> Val) (x : option A) (m : Row) :
  assign key f x m = ∅ -> x = None /\ m = ∅.
Proof.
  destruct x as [a|]; cbn [assign]; intros H.
  - apply insert_non_empty in H. destruct H.
  - split; [reflexivity | exact H].
Qed.

(** The update set is empty exactly for a payload without fields. *)
Lemma updateData_empty (d : Update.data) :
  updateData d = ∅ <-> no_fields d = true.
Proof.
  split.
  - unfold updateData, updateDataHead. intros H.
    repeat (apply assign_empty in H as [? H]).
    destruct d; cbn in *; subst; reflexivity.
  - destruct d as [[] [] [] [] [] [] [] [] [] []]; try discriminate.
    reflexivity.
Qed.

Lemma updateData_size (d : Update.data) :
  (size (updateData d) =? 0)%nat = no_fields d.
Proof.
  destruct (no_fields d) eqn:Hd.
  - apply updateData_empty in Hd. rewrite Hd. reflexivity.
  - apply Nat.eqb_neq. intros Hs. apply map_size_empty_iff in Hs.
    apply updateData_empty in Hs. congruence.
Qed.

Lemma lookup_assign_ne {A} (key col : string) (f : A -> Val) (x : option A)
    (m : Row) :
  key <> col -> assign key f x m !! col = m !! col.
Proof.
  intros Hne. destruct x; cbn [assign]; [|reflexivity].
  apply lookup_insert_ne, Hne.
Qed.

Lemma lookup_assign_eq {A} (key : string) (f : A -> Val) (x : option A)
    (m : Row) :
  assign key f x m !! key
  = match x with
    | Some a => Some (f a)
    | None => m !! key
    end.
Proof. destruct x; cbn [assign]; [apply lookup_insert_eq | reflexivity]. Qed.

Lemma updateData_tegs (d : Update.data) :
  updateData d !! "tegs"
  = (fun t => VArr (map teg_text t)) <$> Update.tegs d.
Proof.
  unfold updateData, updateDataHead.
  rewrite !lookup_assign_ne by done. rewrite lookup_assign_eq.
  destruct (Update.tegs d); [reflexivity|].
  rewrite !lookup_assign_ne by done. apply lookup_empty.
Qed.

Lemma updateData_image (d : Update.data) :
  updateData d !! "image"
  = (fun urls => VStr (Js.pgArray urls)) <$> Update.imageUrls d.
Proof.
  unfold updateData, updateDataHead. rewrite lookup_assign_eq.
  destruct (Update.imageUrls d); [reflexivity|].
  rewrite !lookup_assign_ne by done. apply lookup_empty.
Qed.

Lemma updated_lookup (set p : Row) (col : string) :
  (set ∪ p) !! col
  = match set !! col with
    | Some v => Some v
    | None => p !! col
    end.
Proof.
  rewrite lookup_union. destruct (set !! col), (p !! col); reflexivity.
Qed.

Lemma store_column_array (col : string) (l : list string) (m : Row) :
  m !! col = Some (VArr l) -> store_column col m = Some m.
Proof.
  intros H. unfold store_column. rewrite H. cbn [array_in].
  rewrite insert_id by exact H. reflexivity.
Qed.

Lemma store_column_absent (col : string) (m : Row) :
  m !! col = None -> store_column col m = Some m.
Proof. intros H. unfold store_column. rewrite H. reflexivity. Qed.

Lemma store_column_tegs (m : Row) (ts : option (list Teg)) :
  m !! "tegs" = (fun t => VArr (map teg_text t)) <$> ts ->
  store_column "tegs" m = Some m.
Proof.
  destruct ts as [t|]; cbn [fmap option_fmap option_map]; intros H.
  - eapply store_column_array, H.
  - apply store_column_absent, H.
Qed.

(** The update set as the columns keep it. *)
Lemma store_updateData (d : Update.data) :
  store (updateData d) = accepted_set d.
Proof.
  unfold store, array_columns, accepted_set. cbn [fold_right].
  unfold store_column at 1. rewrite updateData_image.
  destruct (Update.imageUrls d) as [urls|];
    cbn [fmap option_fmap option_map array_in].
  - destruct (PgArray.read (Js.pgArray urls)) as [l|]; [|reflexivity].
    apply (store_column_tegs _ (Update.tegs d)).
    rewrite lookup_insert_ne by done. apply updateData_tegs.
  - apply (store_column_tegs _ (Update.tegs d)), updateData_tegs.
Qed.

Lemma updateProduct_nothing (b : string) (d : Update.data) (w : World) :
  no_fields d = true ->
  updateProduct b d w = (Throw (JsError noFields), printed None w).
Proof.
  intros Hd. unfold updateProduct, bind, consoleLog.
  rewrite updateData_size, Hd.
  destruct d as [[] [] [] [] [] [] [] [] [] []]; try discriminate.
  reflexivity.
Qed.

Lemma updateProduct_run (b : string) (d : Update.data) (w : World) :
  no_fields d = false ->
  updateProduct b d w
  = match accepted_set d with
    | None =>
        (Throw (PgError MalformedArray),
         record (KnexUpdate b (updateData d))
           (printed (updateDataHead d !! "tegs") w))
    | Some set =>
        if update_admitted b set (db w)
        then (match carrying b (product (db w)) with
              | [] => Throw (JsError (notFound b))
              | p :: _ => Ok (set ∪ p)
              end,
              with_db (with_products (overwrite b set (product (db w)))
                         (db w))
                (record (KnexUpdate b (updateData d))
                   (printed (updateDataHead d !! "tegs") w)))
        else (Throw (PgError ConstraintViolation),
              record (KnexUpdate b (updateData d))
                (printed (updateDataHead d !! "tegs") w))
    end.
Proof.
  intros Hd. unfold updateProduct, bind, consoleLog.
  rewrite updateData_size, Hd. unfold knexUpdate. cbn [db record].
  rewrite run_update_barcode, store_updateData.
  destruct (accepted_set d) as [set|]; [|reflexivity].
  unfold printed at 1. cbn [db].
  destruct (update_admitted b set (db w)); [|reflexivity].
  destruct (carrying b (product (db w))); reflexivity.
Qed.


Lemma updateProduct_trace (b : string) (d : Update.data) (w : World) :
  no_fields d = false ->
  trace (snd (updateProduct b d w)) = trace w ++ [KnexUpdate b (updateData d)].
Proof.
  intros Hd. rewrite updateProduct_run by exact Hd.
  destruct (accepted_set d) as [set|]; [|reflexivity].
  destruct (update_admitted b set (db w)); reflexivity.
Qed.

(** A call of [updateProduct] that returns a row returns the first row
    of the barcode under the values the columns keep. *)
Lemma updateProduct_ok (b : string) (d : Update.data) (w : World) (r : Row) :
  no_fields d = false ->
  fst (updateProduct b d w) = Ok r ->
  exists (set p : Row) (rest : list Row),
    accepted_set d = Some set
    /\ update_admitted b set (db w) = true
    /\ carrying b (product (db w)) = p :: rest
    /\ r = set ∪ p.
Proof.
  intros Hd. rewrite updateProduct_run by exact Hd.
  destruct (accepted_set d) as [set|]; [|discriminate].
  destruct (update_admitted b set (db w)) eqn:Ha; [|discriminate]. cbn [fst].
  destruct (carrying b (product (db w))) as [|p rest]; [discriminate|].
  intros H. injection H as <-. exists set, p, rest.
  split; [reflexivity|]. split; [exact Ha|]. split; reflexivity.
Qed.

Lemma accepted_set_tegs (d : Update.data) (set : Row) :
  accepted_set d = Some set ->
  set !! "tegs" = (fun t => VArr (map teg_text t)) <$> Update.tegs d.
Proof.
  unfold accepted_set. rewrite <- updateData_tegs.
  destruct (Update.imageUrls d) as [urls|].
  - destruct (PgArray.read (Js.pgArray urls)) as [l|]; [|discriminate].
    intros H. injection H as <-. apply lookup_insert_ne. done.
  - intros H. injection H as <-. reflexivity.
Qed.

Lemma accepted_set_image (d : Update.data) (set : Row) :
  accepted_set d = Some set ->
  match Update.imageUrls d with
  | None => set !! "image" = None
  | Some urls =>
      exists l : list string,
        PgArray.read (Js.pgArray urls) = Some l
        /\ set !! "image" = Some (VArr l)
  end.
Proof.
  unfold accepted_set. pose proof (updateData_image d) as Hi.
  destruct (Update.imageUrls d) as [urls|].
  - destruct (PgArray.read (Js.pgArray urls)) as [l|]; [|discriminate].
    intros H. injection H as <-. exists l. split; [reflexivity|].
    apply lookup_insert_eq.
  - intros H. injection H as <-. exact Hi.
Qed.

End UpdateFacts.

Module ListingFacts.
Import Pg Spec Repo PgFacts.

Lemma elem_of_insert_desc {A} (key : A -> option Z) (x y : A) (l : list A) :
  y ∈ insert_desc key x l <-> y = x \/ y ∈ l.
Proof.
  induction l as [|z l IH]; cbn [insert_desc].
  - rewrite list_elem_of_singleton. rewrite elem_of_nil. tauto.
  - destruct (desc_le (key x) (key z)).
    + rewrite elem_of_cons. reflexivity.
    + rewrite !elem_of_cons, IH. tauto.
Qed.

(** Ordering loses no row and invents none. *)
Lemma elem_of_order_desc {A} (key : A -> option Z) (y : A) (l : list A) :
  y ∈ order_desc key l <-> y ∈ l.
Proof.
  unfold order_desc. induction l as [|x l IH]; cbn [fold_right].
  - reflexivity.
  - rewrite elem_of_insert_desc, elem_of_cons, IH. reflexivity.
Qed.

Lemma length_insert_desc {A} (key : A -> option Z) (x : A) (l : list A) :
  length (insert_desc key x l) = S (length l).
Proof.
  induction l as [|z l IH]; cbn [insert_desc]; [reflexivity|].
  destruct (desc_le (key x) (key z)); cbn [length]; [reflexivity|].
  rewrite IH. reflexivity.
Qed.

Lemma length_order_desc {A} (key : A -> option Z) (l : list A) :
  length (order_desc key l) = length l.
Proof.
  unfold order_desc. induction l as [|x l IH]; cbn [fold_right]; [reflexivity|].
  rewrite length_insert_desc, IH. reflexivity.
Qed.

(** The rows of the join: a product paired with a branch it refers to. *)
Lemma elem_of_joined (d : Db) (p b : Row) :
  (p, b) ∈ joined d <-> p ∈ product d /\ b ∈ branches_of d p.
Proof.
  unfold joined, from, branches_of.
  rewrite list_elem_of_In, in_flat_map. split.
  - intros (x & Hx & Hb). apply in_map_iff in Hb as (b' & Heq & Hb').
    injection Heq as -> ->. rewrite !list_elem_of_In. split; assumption.
  - intros (Hp & Hb). exists p. rewrite <- list_elem_of_In. split; [exact Hp|].
    apply in_map_iff. exists b. rewrite <- list_elem_of_In. split; [reflexivity|exact Hb].
Qed.

Lemma elem_of_listing (rows : list (Row * Row)) (p b : Row) :
  (p, b) ∈ rows ->
  <["branch_name" := default VNull (b !! "name")]> p ∈ listing rows.
Proof.
  intros H. unfold listing, project.
  apply (elem_of_order_desc (fun r => updated_at (fst r))) in H.
  apply (list_elem_of_fmap_2
           (fun '(p, b) => <["branch_name" := default VNull (b !! "name")]> p)) in H.
  exact H.
Qed.

Lemma listed (rows : list (Row * Row)) (r : Row) :
  r ∈ listing rows
  <-> exists p b : Row,
        (p, b) ∈ rows /\ r = <["branch_name" := default VNull (b !! "name")]> p.
Proof.
  unfold listing, project. rewrite list_elem_of_fmap. split.
  - intros ([p b] & -> & H). apply elem_of_order_desc in H.
    exists p, b. split; [exact H | reflexivity].
  - intros (p & b & H & ->). exists (p, b). split; [reflexivity|].
    apply elem_of_order_desc. exact H.
Qed.

(** The [ON] clause as the code computes it and as [refers_to] words it. *)
Lemma join_on_refers (p b : Row) : Is_true (join_on p b) <-> refers_to p b.
Proof.
  unfold join_on, refers_to. split.
  - intros H. destruct (b !! "id") as [[| i | |]|]; try contradiction.
    destruct (p !! "branch_id") as [[| j | |]|]; try contradiction.
    apply Is_true_true, Z.eqb_eq in H. subst j. exists i. split; reflexivity.
  - intros (i & -> & ->). rewrite Z.eqb_refl. exact I.
Qed.

Lemma elem_of_branches_of (d : Db) (p b : Row) :
  b ∈ branches_of d p <-> b ∈ branch d /\ refers_to p b.
Proof.
  unfold branches_of. rewrite list_elem_of_filter, join_on_refers. tauto.
Qed.

Lemma slice_rows {A} (page pageSize : Z) (l : list A) (x : A) :
  x ∈ slice page pageSize l -> x ∈ l.
Proof.
  unfold slice. intros H.
  apply subseteq_take in H. apply subseteq_drop in H. exact H.
Qed.

End ListingFacts.

(** * The contract of [ProductRepo] *)

Module Contract.
Import Pg Spec Repo Sample.
Import JsFacts LikeFacts ArrayFacts PgFacts RepoFacts WriteFacts UpdateFacts.

(** ** Listings *)

Lemma paginate_block (page pageSize : Z) (n : nat) (rows : list Row) :
  1 <= pageSize ->
  exists k : Z,
    pagination (paginate page pageSize (NInt (Z.of_nat n)) rows)
    = {| total_records := NInt (Z.of_nat n);
         current_page := page;
         total_pages := NInt k;
         next_page := if page <? k then Some (page + 1) else None;
         prev_page := if 1 <? page then Some (page - 1) else None |}
    /\ (k - 1) * pageSize < Z.of_nat n <= k * pageSize.
Proof.
  intros Hs. destruct (ceilDiv_pages (Z.of_nat n) pageSize) as (k & Hk & Hb); [lia|].
  exists k. split; [|exact Hb].
  unfold paginate. cbn [pagination]. rewrite Hk. reflexivity.
Qed.

(** C2.  For [page >= 1] and [pageSize >= 1], [getProducts] (with or
    without a search text) and [selectAllProduct] return a pagination
    block in which [total_pages] is the ceiling of
    [total_records / pageSize], [next_page] is [page + 1] exactly when
    [page < total_pages] and null otherwise, and [prev_page] is
    [page - 1] exactly when [page > 1] and null otherwise. *)
Theorem pagination_block (page pageSize : Z) (q : option string) (w : World)
    (r : Res Page) :
  1 <= page -> 1 <= pageSize ->
  r = fst (getProducts page pageSize q w)
  \/ r = fst (selectAllProduct page pageSize w) ->
  exists (p : Page) (n k : Z),
    r = Ok p
    /\ total_records (pagination p) = NInt n
    /\ total_pages (pagination p) = NInt k
    /\ 0 <= n /\ (k - 1) * pageSize < n <= k * pageSize
    /\ (page < k -> next_page (pagination p) = Some (page + 1))
    /\ (k <= page -> next_page (pagination p) = None)
    /\ (1 < page -> prev_page (pagination p) = Some (page - 1))
    /\ (page <= 1 -> prev_page (pagination p) = None).
Proof.
  intros Hp Hs Hr.
  pose proof (offset_nonneg page pageSize Hp Hs) as Ho.
  assert (Hrun : exists (n : nat) (rows : list Row),
            r = Ok (paginate page pageSize (NInt (Z.of_nat n)) rows)).
  { destruct Hr as [-> | ->].
    - destruct (blank q) eqn:Hq.
      + rewrite getProducts_listing by (assumption || lia). eauto.
      + destruct q as [q|]; [|discriminate].
        rewrite getProducts_search by (assumption || lia). eauto.
    - rewrite selectAllProduct_run by (assumption || lia). eauto. }
  destruct Hrun as (n & rows & ->).
  destruct (paginate_block page pageSize n rows Hs) as (k & Hpg & Hk).
  exists (paginate page pageSize (NInt (Z.of_nat n)) rows), (Z.of_nat n), k.
  rewrite Hpg. cbn [total_records total_pages next_page prev_page].
  repeat split; try lia.
  - intros H. destruct (Z.ltb_spec page k); [reflexivity | lia].
  - intros H. destruct (Z.ltb_spec page k); [lia | reflexivity].
  - intros H. destruct (Z.ltb_spec 1 page); [reflexivity | lia].
  - intros H. destruct (Z.ltb_spec 1 page); [lia | reflexivity].
Qed.

Lemma pagination_block_witness :
  exists (p : Page) (n k : Z),
    fst (getProducts 2 1 (Some "0") (shop [milk; bread])) = Ok p
    /\ total_records (pagination p) = NInt n
    /\ total_pages (pagination p) = NInt k
    /\ 0 <= n /\ (k - 1) * 1 < n <= k * 1
    /\ (2 < k -> next_page (pagination p) = Some (2 + 1))
    /\ (k <= 2 -> next_page (pagination p) = None)
    /\ (1 < 2 -> prev_page (pagination p) = Some (2 - 1))
    /\ (2 <= 1 -> prev_page (pagination p) = None).
Proof.
  apply (pagination_block 2 1 (Some "0"%string) (shop [milk; bread]));
    [lia | lia | left; reflexivity].
Defined.

(** C8, as the code has it.  With [q] absent, empty or all white space,
    [getProducts] runs as it does without a search text and applies no
    search condition: [total_records] counts every row of [product], and
    the rows of the page come from the listing of the products joined
    with their branch, which holds a row for a product and a branch
    exactly when the product's [branch_id] is the branch's [id],
    whatever the product's name or barcode.  Where no two joined rows
    share their [updated_at] the page is the window of that listing. *)
Theorem blank_query_lists_everything (page pageSize : Z) (q : option string)
    (w : World) :
  blank q = true ->
  getProducts page pageSize q w = getProducts page pageSize None w
  /\ (1 <= page -> 1 <= pageSize ->
      exists p : Page,
        fst (getProducts page pageSize q w) = Ok p
        /\ total_records (pagination p)
           = NInt (Z.of_nat (length (product (db w))))
        /\ (forall r : Row, r ∈ data p -> r ∈ listing (joined (db w)))
        /\ (forall r : Row,
              r ∈ listing (joined (db w))
              <-> exists x b : Row,
                    x ∈ product (db w) /\ b ∈ branch (db w)
                    /\ refers_to x b
                    /\ r = <["branch_name" := default VNull (b !! "name")]> x)
        /\ (no_ties (map fst (joined (db w))) = true ->
            data p = slice page pageSize (listing (joined (db w))))).
Proof.
  intros Hq. split.
  - unfold getProducts. rewrite (hasQuery_blank q), Hq. reflexivity.
  - intros Hp Hs. pose proof (offset_nonneg page pageSize Hp Hs) as Ho.
    rewrite getProducts_listing by (assumption || lia).
    eexists. split; [reflexivity|]. cbn [fst paginate pagination data total_records].
    split; [reflexivity|]. split; [|split].
    + intros r. apply ListingFacts.slice_rows.
    + intros r. rewrite ListingFacts.listed. split.
      * intros (x & b & H & ->). apply ListingFacts.elem_of_joined in H as [Hx Hb].
        apply ListingFacts.elem_of_branches_of in Hb as [Hb Hr].
        exists x, b. repeat (split; [assumption|]). reflexivity.
      * intros (x & b & Hx & Hb & Hr & ->). exists x, b. split; [|reflexivity].
        apply ListingFacts.elem_of_joined. split; [exact Hx|].
        apply ListingFacts.elem_of_branches_of. split; assumption.
    + intros _. reflexivity.
Qed.

Lemma blank_query_lists_everything_witness :
  getProducts 1 10 (Some "  ") (shop [milk; bread])
  = getProducts 1 10 None (shop [milk; bread])
  /\ (1 <= 1 -> 1 <= 10 ->
      exists p : Page,
        fst (getProducts 1 10 (Some "  ") (shop [milk; bread])) = Ok p
        /\ total_records (pagination p)
           = NInt (Z.of_nat (length (product (db (shop [milk; bread])))))
        /\ (forall r : Row,
              r ∈ data p -> r ∈ listing (joined (db (shop [milk; bread]))))
        /\ (forall r : Row,
              r ∈ listing (joined (db (shop [milk; bread])))
              <-> exists x b : Row,
                    x ∈ product (db (shop [milk; bread]))
                    /\ b ∈ branch (db (shop [milk; bread]))
                    /\ refers_to x b
                    /\ r = <["branch_name" := default VNull (b !! "name")]> x)
        /\ (no_ties (map fst (joined (db (shop [milk; bread])))) = true ->
            data p = slice 1 10 (listing (joined (db (shop [milk; bread])))))).
Proof.
  apply (blank_query_lists_everything 1 10 (Some "  "%string)
           (shop [milk; bread])).
  reflexivity.
Defined.

(** C8 as stated fails where a product refers to no branch: the product
    is counted, and a first page wide enough for every product does not
    show it. *)
Lemma orphan_counted_not_listed :
  orphan ∈ product (db (shop [milk; orphan]))
  /\ (forall b : Row, b ∈ branch (db (shop [milk; orphan])) -> ~ refers_to orphan b)
  /\ exists p : Page,
       fst (getProducts 1 10 None (shop [milk; orphan])) = Ok p
       /\ total_records (pagination p) = NInt 2
       /\ data p = [ <["branch_name" := VStr "Main"]> milk ].
Proof.
  split; [|split].
  - apply list_elem_of_In. right. left. reflexivity.
  - intros b Hb (i & Hi & Ho).
    apply list_elem_of_singleton in Hb. subst b.
    vm_compute in Hi. vm_compute in Ho. congruence.
  - eexists. split; [vm_compute; reflexivity|]. split; reflexivity.
Qed.

(** C6.  For a search text that is not blank, the two statements of
    [getProducts] share their [FROM] and [WHERE] clauses, the page
    statement binds the values of the count statement followed by the
    limit and the offset, and so [total_records] is the number of the
    rows the page is cut from. *)
Theorem search_count_matches_page (page pageSize : Z) (q : string) (w : World) :
  blank (Some q) = false -> 1 <= page -> 1 <= pageSize ->
  exists (c d : Select) (bc bd : list Val) (p : Page) (rows : list (Row * Row)),
    trace (snd (getProducts page pageSize (Some q) w))
    = trace w ++ [Raw (SelectFrom c) bc; Raw (SelectFrom d) bd]
    /\ sel_proj c = CountStar /\ sel_limit c = false /\ sel_limit d = true
    /\ sel_from c = sel_from d
    /\ sel_where c = sel_where d
    /\ bd = bc ++ [VNum pageSize; VNum ((page - 1) * pageSize)]
    /\ run_select c bc (db w)
       = inr [ {[ "count" := VStr (Js.decimal (length rows)) ]} ]
    /\ run_select d bd (db w) = inr (slice page pageSize (listing rows))
    /\ fst (getProducts page pageSize (Some q) w) = Ok p
    /\ total_records (pagination p) = NInt (Z.of_nat (length rows))
    /\ data p = slice page pageSize (listing rows).
Proof.
  intros Hq Hp Hs. pose proof (offset_nonneg page pageSize Hp Hs) as Ho.
  rewrite getProducts_search by (assumption || lia).
  eexists _, _, _, _, _, (found (db w) q). cbn [fst snd record trace].
  split. { rewrite <- app_assoc. reflexivity. }
  repeat (split; [reflexivity|]).
  split. { apply count_search. }
  split. { apply page_search; lia. }
  repeat (split; [reflexivity|]). reflexivity.
Qed.

Lemma search_count_matches_page_witness :
  exists (c d : Select) (bc bd : list Val) (p : Page) (rows : list (Row * Row)),
    trace (snd (getProducts 1 1 (Some "0") (shop [milk; bread])))
    = trace (shop [milk; bread]) ++ [Raw (SelectFrom c) bc; Raw (SelectFrom d) bd]
    /\ sel_proj c = CountStar /\ sel_limit c = false /\ sel_limit d = true
    /\ sel_from c = sel_from d
    /\ sel_where c = sel_where d
    /\ bd = bc ++ [VNum 1; VNum ((1 - 1) * 1)]
    /\ run_select c bc (db (shop [milk; bread]))
       = inr [ {[ "count" := VStr (Js.decimal (length rows)) ]} ]
    /\ run_select d bd (db (shop [milk; bread]))
       = inr (slice 1 1 (listing rows))
    /\ fst (getProducts 1 1 (Some "0") (shop [milk; bread])) = Ok p
    /\ total_records (pagination p) = NInt (Z.of_nat (length rows))
    /\ data p = slice 1 1 (listing rows).
Proof.
  apply (search_count_matches_page 1 1 "0" (shop [milk; bread]));
    [reflexivity | lia | lia].
Defined.

(** ** Reading, deleting and updating by barcode *)

Lemma notFound_not_noFields (b : string) : notFound b <> noFields.
Proof.
  intros H.
  apply (f_equal (fun s => match s with String c _ => c | EmptyString => "."%char end)) in H.
  cbv in H. discriminate.
Qed.







(** C9.  [updateProduct] checks for an empty payload before it sends
    anything: a call that raises the no-fields error had a payload
    without fields, recorded no statement, and left the tables as they
    were. *)
Theorem empty_update_sends_nothing (b : string) (d : Update.data) (w : World) :
  fst (updateProduct b d w) = Throw (JsError noFields) ->
  no_fields d = true
  /\ trace (snd (updateProduct b d w)) = trace w
  /\ db (snd (updateProduct b d w)) = db w.
Proof.
  destruct (no_fields d) eqn:Hd.
  - intros _. rewrite updateProduct_nothing by exact Hd.
    split; [reflexivity|]. split; reflexivity.
  - rewrite updateProduct_run by exact Hd.
    destruct (accepted_set d) as [set|]; [|discriminate].
    destruct (update_admitted b set (db w)); [|discriminate]. cbn [fst].
    destruct (carrying b (product (db w))); intros H; [|discriminate].
    exfalso. apply (notFound_not_noFields b). congruence.
Qed.

Lemma empty_update_sends_nothing_witness :
  no_fields nothing = true
  /\ trace (snd (updateProduct "001" nothing (shop [milk; bread])))
     = trace (shop [milk; bread])
  /\ db (snd (updateProduct "001" nothing (shop [milk; bread])))
     = db (shop [milk; bread]).
Proof.
  apply (empty_update_sends_nothing "001" nothing (shop [milk; bread])).
  reflexivity.
Defined.

(** ** Writing *)

(** C10.  [createProduct] binds [NULL] for a description that is absent
    or the empty string.  The call returns a row or raises the server's
    error, and it returns the new row when the server takes the bound
    values and admits the row; the returned row, which is then the row
    stored last in the table and, when the barcode was free, the row
    read back by [selectByIDProduct], holds [NULL] in [description]. *)
Theorem falsy_description_is_null (d : Create.data) (w : World) :
  Create.description d = None \/ Create.description d = Some EmptyString ->
  (exists bindings : list Val,
     trace (snd (createProduct d w))
     = trace w ++ [Raw createProductQuery bindings]
     /\ bindings !! 7%nat = Some VNull)
  /\ ((exists e : DbError, fst (createProduct d w) = Throw (PgError e))
      \/ exists r : Row, fst (createProduct d w) = Ok (Some r))
  /\ (forall r : Row,
        new_row d (defaults (db w)) = Some r ->
        admits (db w) (product (db w)) r = true ->
        fst (createProduct d w) = Ok (Some r))
  /\ forall r : Row,
       fst (createProduct d w) = Ok (Some r) ->
       r !! "description" = Some VNull
       /\ last (product (db (snd (createProduct d w)))) = Some r
       /\ (unknown (Create.barcode d) (db w) = true ->
           fst (selectByIDProduct (Create.barcode d)
                  (snd (createProduct d w)))
           = Ok (Some r)).
Proof.
  intros Hd. split; [|split; [|split]].
  - exists (createBindings d). split; [apply createProduct_trace|].
    destruct Hd as [H | H]; unfold createBindings; rewrite H; reflexivity.
  - apply createProduct_cases.
  - apply createProduct_admitted.
  - intros r Hr. split; [|split].
    + destruct (createProduct_ok d w r Hr) as (Hn & _ & _).
      rewrite (new_row_description d _ r Hn).
      destruct Hd as [-> | ->]; reflexivity.
    + destruct (createProduct_ok d w r Hr) as (_ & _ & ->).
      cbn [with_products product]. apply last_snoc.
    + apply create_then_select. exact Hr.
Qed.

Lemma falsy_description_is_null_witness :
  exists r : Row,
    fst (createProduct (juice (Some EmptyString) [] None)
           (shop [milk; bread])) = Ok (Some r)
    /\ r !! "description" = Some VNull
    /\ last (product (db (snd (createProduct (juice (Some EmptyString) [] None)
                                 (shop [milk; bread]))))) = Some r
    /\ fst (selectByIDProduct "004"
               (snd (createProduct (juice (Some EmptyString) [] None)
                       (shop [milk; bread]))))
        = Ok (Some r).
Proof.
  destruct (falsy_description_is_null (juice (Some EmptyString) [] None)
              (shop [milk; bread]))
    as (_ & [[e He] | [r Hr]] & _ & H); [right; reflexivity | |].
  - vm_compute in He. discriminate He.
  - exists r. split; [exact Hr|].
    destruct (H r Hr) as (Hd & Hl & Hs).
    split; [exact Hd|]. split; [exact Hl|]. apply Hs. reflexivity.
Defined.

Lemma pgArray_not_empty_literal (x : string) (xs : list string) :
  Js.pgArray (x :: xs) <> "{}"%string.
Proof.
  unfold Js.pgArray. cbn [map String.concat].
  destruct (map Js.quoted xs); intros H; discriminate H.
Qed.

Lemma tegsArrayPg_cases (d : Create.data) :
  tegsArrayPg d
  = match Create.tegs d with
    | [] => VNull
    | _ :: _ => VStr (Js.pgArray (map teg_text (Create.tegs d)))
    end.
Proof. unfold tegsArrayPg. destruct (Create.tegs d); reflexivity. Qed.

Lemma imageArrayPg_cases (d : Create.data) :
  imageArrayPg d
  = match Create.imageUrls d with
    | None | Some [] => VNull
    | Some (url :: urls) => VStr (Js.pgArray (url :: urls))
    end.
Proof. unfold imageArrayPg. destruct (Create.imageUrls d) as [[|]|]; reflexivity. Qed.

(** C3, as the code has it.  [createProduct] binds [NULL] for [tegs]
    when the list is empty and for [image] when [imageUrls] is absent or
    empty, and otherwise the brace-wrapped list of quoted elements,
    which is never the empty array literal; a row it returns holds
    [NULL] where [NULL] was bound, and else the list of the tags and
    the list the server reads from the image literal.  [updateProduct]
    with a field sends a set without [tegs] or [image] when that field
    is absent, with the array of the tags itself for a supplied [tegs],
    and with the brace-wrapped list of quoted elements for a supplied
    [imageUrls]; a row it returns keeps the old value of a column that
    was not sent, and holds the tags and the list the server reads from
    the image literal otherwise. *)
Theorem array_columns_written :
  (forall (d : Create.data) (w : World),
     exists bindings : list Val,
       trace (snd (createProduct d w))
       = trace w ++ [Raw createProductQuery bindings]
       /\ bindings !! 8%nat
          = Some (match Create.tegs d with
                  | [] => VNull
                  | _ :: _ => VStr (Js.pgArray (map teg_text (Create.tegs d)))
                  end)
       /\ bindings !! 9%nat
          = Some (match Create.imageUrls d with
                  | None | Some [] => VNull
                  | Some (url :: urls) => VStr (Js.pgArray (url :: urls))
                  end)
       /\ bindings !! 8%nat <> Some (VStr "{}")
       /\ bindings !! 9%nat <> Some (VStr "{}")
       /\ forall r : Row,
            fst (createProduct d w) = Ok (Some r) ->
            r !! "tegs"
            = Some (match Create.tegs d with
                    | [] => VNull
                    | _ :: _ => VArr (map teg_text (Create.tegs d))
                    end)
            /\ match Create.imageUrls d with
               | None | Some [] => r !! "image" = Some VNull
               | Some (url :: urls) =>
                   forall l : list string,
                     PgArray.read (Js.pgArray (url :: urls)) = Some l ->
                     r !! "image" = Some (VArr l)
               end)
  /\ (forall (b : string) (d : Update.data) (w : World),
        no_fields d = false ->
        exists set : Row,
          trace (snd (updateProduct b d w)) = trace w ++ [KnexUpdate b set]
          /\ set !! "tegs"
             = match Update.tegs d with
               | Some t => Some (VArr (map teg_text t))
               | None => None
               end
          /\ set !! "image"
             = match Update.imageUrls d with
               | Some urls => Some (VStr (Js.pgArray urls))
               | None => None
               end
          /\ forall (r p : Row) (rest : list Row),
               carrying b (product (db w)) = p :: rest ->
               fst (updateProduct b d w) = Ok r ->
               r !! "tegs"
               = match Update.tegs d with
                 | Some t => Some (VArr (map teg_text t))
                 | None => p !! "tegs"
                 end
               /\ match Update.imageUrls d with
                  | None => r !! "image" = p !! "image"
                  | Some urls =>
                      forall l : list string,
                        PgArray.read (Js.pgArray urls) = Some l ->
                        r !! "image" = Some (VArr l)
                  end).
Proof.
  split.
  - intros d w. exists (createBindings d).
    split; [apply createProduct_trace|].
    assert (H8 : createBindings d !! 8%nat = Some (tegsArrayPg d))
      by reflexivity.
    assert (H9 : createBindings d !! 9%nat = Some (imageArrayPg d))
      by reflexivity.
    rewrite H8, H9, tegsArrayPg_cases, imageArrayPg_cases.
    split; [reflexivity|]. split; [reflexivity|]. split; [|split].
    + destruct (Create.tegs d) as [|t ts]; [discriminate|].
      intros H.
      apply (pgArray_not_empty_literal (teg_text t) (map teg_text ts)).
      change (teg_text t :: map teg_text ts) with (map teg_text (t :: ts)).
      congruence.
    + destruct (Create.imageUrls d) as [[|url urls]|]; try discriminate.
      intros H. apply (pgArray_not_empty_literal url urls). congruence.
    + intros r Hr. destruct (createProduct_ok d w r Hr) as (Hn & _ & _).
      rewrite (new_row_tegs d _ r Hn), (new_row_image d _ r Hn).
      split; [destruct (Create.tegs d); reflexivity|].
      unfold stored_image.
      destruct (Create.imageUrls d) as [[|url urls]|]; try reflexivity.
      intros l ->. reflexivity.
  - intros b d w Hd. exists (updateData d).
    split; [apply updateProduct_trace, Hd|].
    rewrite updateData_tegs, updateData_image.
    split; [destruct (Update.tegs d); reflexivity|].
    split; [destruct (Update.imageUrls d); reflexivity|].
    intros r p rest Hp Hr.
    destruct (updateProduct_ok b d w r Hd Hr) as (set & p' & rest' & Hs & _ & Hp' & ->).
    rewrite Hp in Hp'. injection Hp' as <- <-.
    rewrite !updated_lookup, (accepted_set_tegs d set Hs).
    pose proof (accepted_set_image d set Hs) as Hi.
    split; [destruct (Update.tegs d); reflexivity|].
    destruct (Update.imageUrls d) as [urls|].
    + destruct Hi as (l' & Hl' & ->). intros l Hl. congruence.
    + rewrite Hi. reflexivity.
Qed.

Lemma array_columns_written_witness :
  exists set r : Row,
    trace (snd (updateProduct "001"
                  (arrays_only [new; sale] ["a.png"; "b.png"])
                  (shop [milk; bread])))
    = trace (shop [milk; bread]) ++ [KnexUpdate "001" set]
    /\ set !! "tegs" = Some (VArr ["new"; "sale"])
    /\ set !! "image" = Some (VStr (Js.pgArray ["a.png"; "b.png"]))
    /\ fst (updateProduct "001" (arrays_only [new; sale] ["a.png"; "b.png"])
              (shop [milk; bread])) = Ok r
    /\ r !! "tegs" = Some (VArr ["new"; "sale"])
    /\ r !! "image" = Some (VArr ["a.png"; "b.png"]).
Proof.
  destruct (proj2 array_columns_written "001"
              (arrays_only [new; sale] ["a.png"; "b.png"]%string)
              (shop [milk; bread]) eq_refl)
    as (set & Ht & Htegs & Himage & Hr).
  assert (Hok : { r : Row |
                  fst (updateProduct "001"
                         (arrays_only [new; sale] ["a.png"; "b.png"]%string)
                         (shop [milk; bread])) = Ok r }).
  { eexists. vm_compute. reflexivity. }
  destruct Hok as [r Hok].
  assert (Hp : carrying "001" (product (db (shop [milk; bread]))) = [milk]).
  { vm_compute. reflexivity. }
  destruct (Hr r milk [] Hp Hok) as [H1 H2].
  exists set, r.
  split; [exact Ht|]. split; [exact Htegs|]. split; [exact Himage|].
  split; [exact Hok|]. split; [exact H1|].
  apply H2. vm_compute. reflexivity.
Defined.

(** C3 as stated fails on [updateProduct]: for an empty [imageUrls] it
    sends the empty array literal, and the column then holds the empty
    list, not [NULL]; a supplied [tegs] is sent as the array, not as a
    brace-wrapped text. *)
Lemma update_stores_empty_literal :
  exists set r : Row,
    trace (snd (updateProduct "001" (arrays_only [new] [])
                  (shop [milk; bread])))
    = [KnexUpdate "001" set]
    /\ set !! "image" = Some (VStr "{}")
    /\ set !! "tegs" = Some (VArr ["new"])
    /\ set !! "tegs" <> Some (VStr (Js.pgArray ["new"]))
    /\ fst (updateProduct "001" (arrays_only [new] []) (shop [milk; bread]))
       = Ok r
    /\ r !! "image" = Some (VArr [])
    /\ r !! "image" <> Some VNull.
Proof.
  eexists _, _. split; [vm_compute; reflexivity|].
  split; [vm_compute; reflexivity|]. split; [vm_compute; reflexivity|].
  split; [vm_compute; discriminate|].
  split; [vm_compute; reflexivity|].
  split; [vm_compute; reflexivity | vm_compute; discriminate].
Qed.

(** ** Searching *)

Lemma matches_by_text (d : Db) (q s : string) (p : Row) :
  p !! "name" = Some (VStr s) \/ p !! "barcode" = Some (VStr s) ->
  ilike (Js.wrapPercent q) s = true ->
  matches d q p = true.
Proof.
  intros [Hn | Hb] Hs; unfold matches, text_of.
  - rewrite Hn, Hs. rewrite orb_true_r. reflexivity.
  - rewrite Hb, Hs. apply orb_true_r.
Qed.

(** C7, as the code has it.  When [q] holds no backslash and occurs,
    letter case aside, in the name or in the barcode of a product that
    refers to a branch, the search condition holds of that product
    whatever the full-text test answers: [searchProduct] returns its
    row, and the filtered [getProducts] counts it and cuts its pages
    from a listing that holds it. *)
Theorem substring_search_finds (q s : string) (p b : Row) (w : World) :
  no_backslash q = true ->
  p ∈ product (db w) -> b ∈ branches_of (db w) p ->
  p !! "name" = Some (VStr s) \/ p !! "barcode" = Some (VStr s) ->
  ci_substring q s ->
  matches (db w) q p = true
  /\ (exists rows : list Row,
        fst (searchProduct q w) = Ok rows
        /\ <["branch_name" := default VNull (b !! "name")]> p ∈ rows)
  /\ (forall page pageSize : Z,
        blank (Some q) = false -> 1 <= page -> 1 <= pageSize ->
        exists (g : Page) (hits : list (Row * Row)),
          fst (getProducts page pageSize (Some q) w) = Ok g
          /\ (p, b) ∈ hits
          /\ total_records (pagination g) = NInt (Z.of_nat (length hits))
          /\ data g = slice page pageSize (listing hits)
          /\ <["branch_name" := default VNull (b !! "name")]> p
             ∈ listing hits).
Proof.
  intros Hq Hp Hb Hcol Hsub.
  assert (Hm : matches (db w) q p = true).
  { apply (matches_by_text _ _ s); [exact Hcol|].
    apply ilike_substring; assumption. }
  assert (Hf : (p, b) ∈ found (db w) q).
  { unfold found. apply list_elem_of_filter. split.
    - cbn [fst]. rewrite Hm. exact I.
    - apply ListingFacts.elem_of_joined. split; assumption. }
  split; [exact Hm|]. split.
  - rewrite searchProduct_run. eexists. split; [reflexivity|].
    unfold project.
    apply (list_elem_of_fmap_2
             (fun '(p, b) => <["branch_name" := default VNull (b !! "name")]> p))
      in Hf.
    exact Hf.
  - intros page pageSize Hnb Hpage Hsize.
    pose proof (offset_nonneg page pageSize Hpage Hsize) as Ho.
    rewrite getProducts_search by (assumption || lia).
    exists (paginate page pageSize
              (NInt (Z.of_nat (length (found (db w) q))))
              (slice page pageSize (listing (found (db w) q)))),
           (found (db w) q).
    split; [reflexivity|]. split; [exact Hf|].
    split; [reflexivity|]. split; [reflexivity|].
    apply ListingFacts.elem_of_listing, Hf.
Qed.

Lemma substring_search_finds_witness :
  matches (db (shop [milk; bread])) "MILK" milk = true
  /\ (exists rows : list Row,
        fst (searchProduct "MILK" (shop [milk; bread])) = Ok rows
        /\ <["branch_name" := default VNull (main_branch !! "name")]> milk
           ∈ rows)
  /\ (forall page pageSize : Z,
        blank (Some "MILK") = false -> 1 <= page -> 1 <= pageSize ->
        exists (g : Page) (hits : list (Row * Row)),
          fst (getProducts page pageSize (Some "MILK") (shop [milk; bread]))
          = Ok g
          /\ (milk, main_branch) ∈ hits
          /\ total_records (pagination g) = NInt (Z.of_nat (length hits))
          /\ data g = slice page pageSize (listing hits)
          /\ <["branch_name" := default VNull (main_branch !! "name")]> milk
             ∈ listing hits).
Proof.
  apply (substring_search_finds "MILK" "Milk 1L" milk main_branch
           (shop [milk; bread])).
  - reflexivity.
  - apply elem_of_cons. left. reflexivity.
  - vm_compute. apply elem_of_cons. left. reflexivity.
  - left. reflexivity.
  - exists EmptyString, " 1l"%string. reflexivity.
Defined.

(** C7 as stated fails for a text with a backslash: the backslash of
    [%\%] makes the closing percent sign literal, so the product named
    [a\b] is not found by the text [\] that its name contains. *)
Lemma backslash_query_misses :
  slashed !! "name" = Some (VStr "a\b")
  /\ ci_substring "\" "a\b"
  /\ slashed ∈ product (db (shop [slashed]))
  /\ main_branch ∈ branches_of (db (shop [slashed])) slashed
  /\ matches (db (shop [slashed])) "\" slashed = false
  /\ fst (searchProduct "\" (shop [slashed])) = Ok []
  /\ fst (getProducts 1 10 (Some "\") (shop [slashed]))
     = Ok (paginate 1 10 (NInt 0) []).
Proof.
  split; [reflexivity|].
  split; [exists "a"%string, "b"%string; reflexivity|].
  split; [apply elem_of_cons; left; reflexivity|].
  split; [vm_compute; apply elem_of_cons; left; reflexivity|].
  split; [reflexivity|].
  split; vm_compute; reflexivity.
Qed.

(** ** The two listings *)

Lemma joined_one_branch (d : Db) :
  one_branch_each d = true ->
  joined d = map (fun p => (p, hd ∅ (branches_of d p))) (product d).
Proof.
  unfold one_branch_each, joined, from.
  fold (branches_of d). 
  induction (product d) as [|p l IH]; [reflexivity|].
  cbn [forallb flat_map map]. intros H. apply andb_true_iff in H as [Hp Hl].
  rewrite IH by exact Hl. apply Nat.eqb_eq in Hp.
  change (filter (fun b => Is_true (join_on p b)) (branch d))
    with (branches_of d p).
  destruct (branches_of d p) as [|b [|b' bs]]; try discriminate.
  reflexivity.
Qed.

Lemma listing_one_branch (d : Db) :
  one_branch_each d = true ->
  listing (joined d)
  = map (with_branch_name d) (order_desc updated_at (product d)).
Proof.
  intros H. rewrite joined_one_branch by exact H. unfold listing, project.
  rewrite (order_desc_map (fun r : Row * Row => updated_at (fst r))
             (fun p : Row => (p, hd ∅ (branches_of d p)))).
  rewrite map_map. reflexivity.
Qed.

Lemma slice_map {A B} (f : A -> B) (page pageSize : Z) (l : list A) :
  slice page pageSize (map f l) = map f (slice page pageSize l).
Proof. unfold slice. rewrite skipn_map, firstn_map. reflexivity. Qed.

(** C1, as the code has it.  For [page >= 1] and [pageSize >= 1],
    [selectAllProduct] and [getProducts] without a search text return
    the same pagination block.  The rows differ: those of
    [selectAllProduct] are rows of the product table, those of
    [getProducts] are rows of its join with [branch], each with
    [branch_name] added.  Where no two products share their
    [updated_at], the page of [selectAllProduct] is the window of the
    ordered table, and if moreover every product refers to exactly one
    branch, the rows of [getProducts] are those of [selectAllProduct]
    with [branch_name] added. *)
Theorem listings_compared (page pageSize : Z) (w : World) :
  1 <= page -> 1 <= pageSize ->
  exists a g : Page,
    fst (selectAllProduct page pageSize w) = Ok a
    /\ fst (getProducts page pageSize None w) = Ok g
    /\ pagination a = pagination g
    /\ (forall r : Row, r ∈ data a -> r ∈ product (db w))
    /\ (forall r : Row,
          r ∈ data g ->
          exists p b : Row,
            p ∈ product (db w) /\ b ∈ branch (db w) /\ refers_to p b
            /\ r = <["branch_name" := default VNull (b !! "name")]> p)
    /\ (no_ties (product (db w)) = true ->
        data a = slice page pageSize (order_desc updated_at (product (db w))))
    /\ (no_ties (product (db w)) = true ->
        one_branch_each (db w) = true ->
        data g = map (with_branch_name (db w)) (data a)).
Proof.
  intros Hp Hs. pose proof (offset_nonneg page pageSize Hp Hs) as Ho.
  rewrite selectAllProduct_run by (assumption || lia).
  rewrite getProducts_listing by (reflexivity || assumption || lia).
  eexists _, _. split; [reflexivity|]. split; [reflexivity|].
  cbn [paginate pagination data].
  split; [reflexivity|]. split; [|split; [|split]].
  - intros r Hr. apply ListingFacts.slice_rows in Hr.
    apply ListingFacts.elem_of_order_desc in Hr. exact Hr.
  - intros r Hr. apply ListingFacts.slice_rows in Hr.
    apply ListingFacts.listed in Hr as (p & b & H & ->).
    apply ListingFacts.elem_of_joined in H as [Hx Hb].
    apply ListingFacts.elem_of_branches_of in Hb as [Hb Hrf].
    exists p, b. repeat (split; [assumption|]). reflexivity.
  - intros _. reflexivity.
  - intros _ H. rewrite listing_one_branch by exact H. apply slice_map.
Qed.

Lemma listings_compared_witness :
  exists a g : Page,
    fst (selectAllProduct 1 10 (shop [milk; bread])) = Ok a
    /\ fst (getProducts 1 10 None (shop [milk; bread])) = Ok g
    /\ pagination a = pagination g
    /\ data a = slice 1 10 (order_desc updated_at
                              (product (db (shop [milk; bread]))))
    /\ data g = map (with_branch_name (db (shop [milk; bread]))) (data a).
Proof.
  destruct (listings_compared 1 10 (shop [milk; bread]))
    as (a & g & Ha & Hg & Hpg & _ & _ & Hda & Hrows); [lia | lia |].
  exists a, g.
  split; [exact Ha|]. split; [exact Hg|]. split; [exact Hpg|].
  split; [apply Hda; reflexivity|].
  apply Hrows; reflexivity.
Defined.

(** C1 as stated fails: on a shop with one product and its branch the
    row of [getProducts] carries [branch_name] and the row of
    [selectAllProduct] does not. *)
Lemma listings_differ :
  fst (selectAllProduct 1 10 (shop [milk]))
  <> fst (getProducts 1 10 None (shop [milk])).
Proof.
  intros H.
  apply (f_equal (fun r : Res Page =>
                    match r with
                    | Ok p => map (fun row : Row => row !! "branch_name") (data p)
                    | Throw _ => []
                    end)) in H.
  vm_compute in H. discriminate H.
Qed.

End Contract.

(** * Further behaviour of the repository *)

Module Further.
Import Pg Spec Repo Sample.
Import JsFacts LikeFacts ArrayFacts PgFacts RepoFacts WriteFacts UpdateFacts
  ListingFacts.

(** ** Search texts without wildcards *)










(** ** Pages *)

Lemma take_plus {A} (a b : nat) (l : list A) :
  take (a + b) l = take a l ++ take b (drop a l).
Proof.
  revert l. induction a as [|a IH]; intros l; [reflexivity|].
  destruct l as [|x l]; cbn [Nat.add take drop app].
  - rewrite take_nil. reflexivity.
  - rewrite IH. reflexivity.
Qed.

Lemma slice_nat {A} (i : nat) (pageSize : Z) (l : list A) :
  0 <= pageSize ->
  slice (Z.of_nat i + 1) pageSize l
  = take (Z.to_nat pageSize) (drop (i * Z.to_nat pageSize) l).
Proof.
  intros Hs. unfold slice. do 2 f_equal. 
  replace (Z.of_nat i + 1 - 1) with (Z.of_nat i) by lia.
  rewrite Z2Nat.inj_mul by lia. rewrite Nat2Z.id. reflexivity.
Qed.

(** The first [k] windows of a list, side by side, are its first
    [k * pageSize] elements. *)
Lemma slices_upto {A} (k : nat) (pageSize : Z) (l : list A) :
  0 <= pageSize ->
  flat_map (fun i => slice (Z.of_nat i + 1) pageSize l) (seq 0 k)
  = take (k * Z.to_nat pageSize) l.
Proof.
  intros Hs. induction k as [|k IH]; [reflexivity|].
  rewrite seq_S, flat_map_app, IH. cbn [Nat.add flat_map].
  rewrite app_nil_r, slice_nat by exact Hs.
  replace (S k * Z.to_nat pageSize)%nat
    with (k * Z.to_nat pageSize + Z.to_nat pageSize)%nat by lia.
  symmetry. apply take_plus.
Qed.

Lemma length_slice {A} (page pageSize : Z) (l : list A) :
  1 <= page -> 0 <= pageSize ->
  Z.of_nat (length (slice page pageSize l))
  = Z.min pageSize (Z.max 0 (Z.of_nat (length l) - (page - 1) * pageSize)).
Proof.
  intros Hp Hs. unfold slice. rewrite length_take, length_drop.
  assert (0 <= (page - 1) * pageSize) by (apply Z.mul_nonneg_nonneg; lia).
  lia.
Qed.

Lemma pages_cover (n size k : Z) :
  0 < size -> (k - 1) * size < n <= k * size -> 0 <= n ->
  (Z.to_nat n <= Z.to_nat k * Z.to_nat size)%nat /\ 0 <= k.
Proof.
  intros Hs [Hlo Hhi] Hn.
  assert (0 <= k) by nia.
  split; [|assumption]. rewrite <- Z2Nat.inj_mul by lia.
  apply Z2Nat.inj_le; lia.
Qed.

Lemma total_pages_of (page pageSize : Z) (n : nat) (rows : list Row) :
  total_pages (pagination (paginate page pageSize (NInt (Z.of_nat n)) rows))
  = Js.ceilDiv (NInt (Z.of_nat n)) pageSize.
Proof. reflexivity. Qed.

(** X2.  For [pageSize >= 1], where no two products share their
    [updated_at], the pages 1 to [total_pages] of [selectAllProduct],
    one after the other, are the whole product table in listing order:
    no row is skipped and none is shown twice. *)
Theorem selectAllProduct_pages_tile (pageSize : Z) (w : World) :
  1 <= pageSize -> no_ties (product (db w)) = true ->
  exists k : nat,
    (forall page : Z, 1 <= page ->
       exists p : Page,
         fst (selectAllProduct page pageSize w) = Ok p
         /\ total_pages (pagination p) = NInt (Z.of_nat k)
         /\ db (snd (selectAllProduct page pageSize w)) = db w)
    /\ Terms.pages_upto k (fun page => fst (selectAllProduct page pageSize w))
       = order_desc updated_at (product (db w)).
Proof.
  intros Hs _.
  destruct (ceilDiv_pages (Z.of_nat (length (product (db w)))) pageSize)
    as (k & Hk & Hb); [lia|].
  destruct (pages_cover (Z.of_nat (length (product (db w)))) pageSize k)
    as [Hcover Hk0]; [lia | exact Hb | lia |].
  exists (Z.to_nat k). split.
  - intros page Hp. pose proof (offset_nonneg page pageSize Hp Hs).
    rewrite selectAllProduct_run by (assumption || lia).
    eexists. split; [reflexivity|]. cbn [fst snd].
    rewrite total_pages_of, Hk, Z2Nat.id by exact Hk0.
    split; reflexivity.
  - unfold Terms.pages_upto.
    rewrite (flat_map_ext _
               (fun i => slice (Z.of_nat i + 1) pageSize
                           (order_desc updated_at (product (db w))))).
    + rewrite slices_upto by lia. apply take_ge.
      rewrite length_order_desc. rewrite Nat2Z.id in Hcover. exact Hcover.
    + intros i. rewrite selectAllProduct_run; [reflexivity | lia |].
      apply Z.mul_nonneg_nonneg; lia.
Qed.

Lemma selectAllProduct_pages_tile_witness :
  exists k : nat,
    (forall page : Z, 1 <= page ->
       exists p : Page,
         fst (selectAllProduct page 1 (shop [milk; bread])) = Ok p
         /\ total_pages (pagination p) = NInt (Z.of_nat k)
         /\ db (snd (selectAllProduct page 1 (shop [milk; bread])))
            = db (shop [milk; bread]))
    /\ Terms.pages_upto k
         (fun page => fst (selectAllProduct page 1 (shop [milk; bread])))
       = order_desc updated_at (product (db (shop [milk; bread]))).
Proof.
  apply (selectAllProduct_pages_tile 1 (shop [milk; bread]));
    [lia | reflexivity].
Defined.

(** X3.  For [pageSize >= 1] and a search text that is not blank, where
    no two rows the search finds share their [updated_at], the pages 1
    to [total_pages] of [getProducts], one after the other, are exactly
    the listing of the rows the search finds. *)
Theorem search_pages_tile (pageSize : Z) (q : string) (w : World) :
  blank (Some q) = false -> 1 <= pageSize ->
  no_ties (map fst (found (db w) q)) = true ->
  exists k : nat,
    (forall page : Z, 1 <= page ->
       exists p : Page,
         fst (getProducts page pageSize (Some q) w) = Ok p
         /\ total_pages (pagination p) = NInt (Z.of_nat k)
         /\ db (snd (getProducts page pageSize (Some q) w)) = db w)
    /\ Terms.pages_upto k
         (fun page => fst (getProducts page pageSize (Some q) w))
       = listing (found (db w) q).
Proof.
  intros Hq Hs _.
  destruct (ceilDiv_pages (Z.of_nat (length (found (db w) q))) pageSize)
    as (k & Hk & Hb); [lia|].
  destruct (pages_cover (Z.of_nat (length (found (db w) q))) pageSize k)
    as [Hcover Hk0]; [lia | exact Hb | lia |].
  exists (Z.to_nat k). split.
  - intros page Hp. pose proof (offset_nonneg page pageSize Hp Hs).
    rewrite getProducts_search by (assumption || lia).
    eexists. split; [reflexivity|]. cbn [fst snd].
    rewrite total_pages_of, Hk, Z2Nat.id by exact Hk0.
    split; reflexivity.
  - unfold Terms.pages_upto.
    rewrite (flat_map_ext _
               (fun i => slice (Z.of_nat i + 1) pageSize
                           (listing (found (db w) q)))).
    + rewrite slices_upto by lia. apply take_ge.
      unfold listing, project. rewrite length_map, length_order_desc.
      rewrite Nat2Z.id in Hcover. exact Hcover.
    + intros i. rewrite getProducts_search; [reflexivity | exact Hq | lia |].
      apply Z.mul_nonneg_nonneg; lia.
Qed.

Lemma search_pages_tile_witness :
  exists k : nat,
    (forall page : Z, 1 <= page ->
       exists p : Page,
         fst (getProducts page 1 (Some "0") (shop [milk; bread])) = Ok p
         /\ total_pages (pagination p) = NInt (Z.of_nat k)
         /\ db (snd (getProducts page 1 (Some "0") (shop [milk; bread])))
            = db (shop [milk; bread]))
    /\ Terms.pages_upto k
         (fun page => fst (getProducts page 1 (Some "0") (shop [milk; bread])))
       = listing (found (db (shop [milk; bread])) "0").
Proof.
  apply (search_pages_tile 1 "0" (shop [milk; bread]));
    [reflexivity | lia | reflexivity].
Defined.

Lemma length_listing (rows : list (Row * Row)) :
  length (listing rows) = length rows.
Proof. unfold listing, project. rewrite length_map. apply length_order_desc. Qed.

Lemma page_fill (page pageSize n k len : Z) :
  1 <= page -> 1 <= pageSize -> 0 <= n ->
  (k - 1) * pageSize < n <= k * pageSize ->
  len = Z.min pageSize (Z.max 0 (n - (page - 1) * pageSize)) ->
  (page < k -> len = pageSize)
  /\ (page = k -> 1 <= len <= pageSize)
  /\ (k < page -> len = 0).
Proof. intros Hp Hs Hn Hk ->. repeat split; intros; nia. Qed.

(** X4.  For [page >= 1] and [pageSize >= 1], a page of
    [selectAllProduct], of [getProducts] with a search text, or of
    [getProducts] without one when every product refers to exactly one
    branch, holds [pageSize] rows before the last page, between 1 and
    [pageSize] rows on the last page, and no row after it. *)
Theorem page_holds_what_is_left (page pageSize : Z) (w : World) (r : Res Page) :
  1 <= page -> 1 <= pageSize ->
  r = fst (selectAllProduct page pageSize w)
  \/ (exists q : string,
        blank (Some q) = false
        /\ r = fst (getProducts page pageSize (Some q) w))
  \/ (one_branch_each (db w) = true
      /\ r = fst (getProducts page pageSize None w)) ->
  exists (p : Page) (k : Z),
    r = Ok p
    /\ total_pages (pagination p) = NInt k
    /\ (page < k -> Z.of_nat (length (data p)) = pageSize)
    /\ (page = k -> 1 <= Z.of_nat (length (data p)) <= pageSize)
    /\ (k < page -> data p = []).
Proof.
  intros Hp Hs Hr. pose proof (offset_nonneg page pageSize Hp Hs) as Ho.
  assert (Hrun : exists (rows : list Row),
            r = Ok (paginate page pageSize (NInt (Z.of_nat (length rows)))
                      (slice page pageSize rows))).
  { destruct Hr as [-> | [(q & Hq & ->) | (Hone & ->)]].
    - rewrite selectAllProduct_run by (assumption || lia).
      exists (order_desc updated_at (product (db w))).
      rewrite length_order_desc. reflexivity.
    - rewrite getProducts_search by (assumption || lia).
      exists (listing (found (db w) q)). rewrite length_listing. reflexivity.
    - rewrite getProducts_listing by (reflexivity || assumption || lia).
      exists (listing (joined (db w))). cbn [fst].
      rewrite length_listing, (Contract.joined_one_branch _ Hone), length_map.
      reflexivity. }
  destruct Hrun as (rows & ->).
  destruct (ceilDiv_pages (Z.of_nat (length rows)) pageSize)
    as (k & Hk & Hb); [lia|].
  eexists _, k. split; [reflexivity|].
  rewrite total_pages_of. split; [exact Hk|]. cbn [paginate data].
  destruct (page_fill page pageSize (Z.of_nat (length rows)) k
              (Z.of_nat (length (slice page pageSize rows))))
    as (Hfull & Hlast & Hpast); try lia.
  { apply length_slice; lia. }
  split; [exact Hfull|]. split; [exact Hlast|].
  intros Hk'. apply Hpast in Hk'. apply length_zero_iff_nil. lia.
Qed.

Lemma page_holds_what_is_left_witness :
  exists (p : Page) (k : Z),
    fst (selectAllProduct 2 1 (shop [milk; bread])) = Ok p
    /\ total_pages (pagination p) = NInt k
    /\ (2 < k -> Z.of_nat (length (data p)) = 1)
    /\ (2 = k -> 1 <= Z.of_nat (length (data p)) <= 1)
    /\ (k < 2 -> data p = []).
Proof.
  apply (page_holds_what_is_left 2 1 (shop [milk; bread]));
    [lia | lia | left; reflexivity].
Defined.

(** ** Order *)

Lemma desc_le_total (a b : option Z) :
  desc_le a b = false -> desc_le b a = true.
Proof.
  destruct a as [a|], b as [b|]; cbn [desc_le]; try discriminate; try reflexivity.
  intros H. apply Z.leb_gt in H. apply Z.leb_le. lia.
Qed.

Lemma desc_le_trans (a b c : option Z) :
  desc_le a b = true -> desc_le b c = true -> desc_le a c = true.
Proof.
  destruct a as [a|], b as [b|], c as [c|]; cbn [desc_le];
    try discriminate; try reflexivity.
  intros H1 H2. apply Z.leb_le in H1, H2. apply Z.leb_le. lia.
Qed.

Lemma sorted_insert_desc {A} (key : A -> option Z) (x : A) (l : list A) :
  Terms.sorted_desc key l -> Terms.sorted_desc key (insert_desc key x l).
Proof.
  induction l as [|y l IH]; cbn [insert_desc Terms.sorted_desc].
  - intros _. split; [constructor | exact I].
  - intros [Hy Hl]. destruct (desc_le (key x) (key y)) eqn:Hxy.
    + cbn [Terms.sorted_desc]. split; [|split; assumption].
      constructor; [rewrite Hxy; exact I|].
      eapply Forall_impl; [exact Hy|]. intros z Hz. cbn beta in *.
      apply Is_true_true. apply Is_true_true in Hz.
      exact (desc_le_trans _ _ _ Hxy Hz).
    + cbn [Terms.sorted_desc]. split; [|apply IH, Hl].
      apply Forall_forall. intros z Hz.
      apply elem_of_insert_desc in Hz as [-> | Hz].
      * apply Is_true_true, desc_le_total, Hxy.
      * rewrite Forall_forall in Hy. apply Hy, Hz.
Qed.

Lemma sorted_order_desc {A} (key : A -> option Z) (l : list A) :
  Terms.sorted_desc key (order_desc key l).
Proof.
  unfold order_desc. induction l as [|x l IH]; cbn [fold_right]; [exact I|].
  apply sorted_insert_desc, IH.
Qed.

Lemma sorted_desc_map {A B} (key : B -> option Z) (f : A -> B) (l : list A) :
  Terms.sorted_desc (fun a => key (f a)) l -> Terms.sorted_desc key (map f l).
Proof.
  induction l as [|x l IH]; cbn [map Terms.sorted_desc]; [tauto|].
  intros [Hx Hl]. split; [|apply IH, Hl].
  apply Forall_fmap. exact Hx.
Qed.

Lemma sorted_desc_drop {A} (key : A -> option Z) (n : nat) (l : list A) :
  Terms.sorted_desc key l -> Terms.sorted_desc key (drop n l).
Proof.
  revert l. induction n as [|n IH]; intros [|x l]; cbn [drop]; try tauto.
  intros [_ Hl]. apply IH, Hl.
Qed.

Lemma sorted_desc_take {A} (key : A -> option Z) (n : nat) (l : list A) :
  Terms.sorted_desc key l -> Terms.sorted_desc key (take n l).
Proof.
  revert l. induction n as [|n IH]; intros [|x l]; cbn [take Terms.sorted_desc];
    try tauto.
  intros [Hx Hl]. split; [|apply IH, Hl].
  apply Forall_take, Hx.
Qed.

Lemma updated_at_branch_name (p : Row) (v : Val) :
  updated_at (<["branch_name" := v]> p) = updated_at p.
Proof. unfold updated_at. rewrite lookup_insert_ne by done. reflexivity. Qed.

Lemma listing_newest_first (rows : list (Row * Row)) :
  Terms.newest_first (listing rows).
Proof.
  unfold Terms.newest_first, listing, project. apply sorted_desc_map.
  pose proof (sorted_order_desc (fun r : Row * Row => updated_at (fst r)) rows)
    as H.
  induction (order_desc (fun r : Row * Row => updated_at (fst r)) rows)
    as [|[p b] l IH]; [exact I|].
  destruct H as [Hx Hl]. split; [|apply IH, Hl].
  eapply Forall_impl; [exact Hx|]. intros [p' b'] Hy. cbn [fst] in Hy.
  rewrite !updated_at_branch_name. exact Hy.
Qed.

Lemma slice_newest_first (page pageSize : Z) (l : list Row) :
  Terms.newest_first l -> Terms.newest_first (slice page pageSize l).
Proof. intros H. apply sorted_desc_take, sorted_desc_drop, H. Qed.

(** X5.  Every page returned by [selectAllProduct] or by [getProducts]
    (with any search text or none) has its rows ordered by [updated_at]
    from newest to oldest, rows without [updated_at] first. *)
Theorem pages_newest_first (page pageSize : Z) (q : option string) (w : World) :
  1 <= page -> 1 <= pageSize ->
  (exists p : Page,
     fst (selectAllProduct page pageSize w) = Ok p
     /\ Terms.newest_first (data p))
  /\ (exists p : Page,
        fst (getProducts page pageSize q w) = Ok p
        /\ Terms.newest_first (data p)).
Proof.
  intros Hp Hs. pose proof (offset_nonneg page pageSize Hp Hs) as Ho. split.
  - rewrite selectAllProduct_run by (assumption || lia).
    eexists. split; [reflexivity|]. cbn [paginate data].
    apply slice_newest_first, sorted_order_desc.
  - destruct (blank q) eqn:Hq.
    + rewrite getProducts_listing by (assumption || lia).
      eexists. split; [reflexivity|]. cbn [paginate data].
      apply slice_newest_first, listing_newest_first.
    + destruct q as [q|]; [|discriminate].
      rewrite getProducts_search by (assumption || lia).
      eexists. split; [reflexivity|]. cbn [paginate data].
      apply slice_newest_first, listing_newest_first.
Qed.

Lemma pages_newest_first_witness :
  (exists p : Page,
     fst (selectAllProduct 1 10 (shop [milk; bread])) = Ok p
     /\ Terms.newest_first (data p))
  /\ (exists p : Page,
        fst (getProducts 1 10 (Some "0") (shop [milk; bread])) = Ok p
        /\ Terms.newest_first (data p)).
Proof.
  apply (pages_newest_first 1 10 (Some "0"%string) (shop [milk; bread])); lia.
Defined.

(** ** Creating, deleting, updating *)

Lemma without_app (b : string) (l1 l2 : list Row) :
  without b (l1 ++ l2) = without b l1 ++ without b l2.
Proof. apply filter_app. Qed.

Lemma without_new_row (d : Create.data) (dflt r : Row) :
  new_row d dflt = Some r -> without (Create.barcode d) [r] = [].
Proof.
  intros Hr. unfold without. rewrite filter_cons, filter_nil.
  assert (H : has_barcode (Create.barcode d) r = true).
  { unfold has_barcode. rewrite (new_row_barcode d dflt r Hr).
    apply String.eqb_refl. }
  rewrite H. destruct (decide (~ Is_true true)) as [Hn|_]; [|reflexivity].
  exfalso. apply Hn. exact I.
Qed.

Lemma carrying_new_row (d : Create.data) (dflt r : Row) :
  new_row d dflt = Some r -> carrying (Create.barcode d) [r] = [r].
Proof.
  intros Hr. unfold carrying. rewrite filter_cons, filter_nil.
  unfold has_barcode. rewrite (new_row_barcode d dflt r Hr), String.eqb_refl.
  reflexivity.
Qed.

(** X6.  When [createProduct] returns a row under a barcode that no
    product carried, deleting that barcode returns the same row and
    leaves the tables as they were before the creation. *)
Theorem create_then_delete (d : Create.data) (w : World) (r : Row) :
  unknown (Create.barcode d) (db w) = true ->
  fst (createProduct d w) = Ok (Some r) ->
  fst (deleteProduct (Create.barcode d) (snd (createProduct d w)))
  = Ok (Some r)
  /\ db (snd (deleteProduct (Create.barcode d) (snd (createProduct d w))))
     = db w.
Proof.
  intros Hb Hr. destruct (createProduct_ok d w r Hr) as (Hn & _ & Hdb).
  rewrite deleteProduct_run, Hdb.
  cbn [fst snd with_db db with_products product].
  rewrite carrying_app, (carrying_new_row d _ r Hn),
    unknown_carrying by exact Hb.
  split; [reflexivity|].
  rewrite without_app, (without_new_row d _ r Hn), unknown_without by exact Hb.
  rewrite app_nil_r. destruct (db w); reflexivity.
Qed.

Lemma create_then_delete_witness :
  exists r : Row,
    fst (createProduct (juice None [hit] None) (shop [milk; bread]))
    = Ok (Some r)
    /\ fst (deleteProduct "004"
              (snd (createProduct (juice None [hit] None)
                      (shop [milk; bread]))))
       = Ok (Some r)
    /\ db (snd (deleteProduct "004"
                  (snd (createProduct (juice None [hit] None)
                          (shop [milk; bread])))))
       = db (shop [milk; bread]).
Proof.
  assert (Hok : { r : Row |
                  fst (createProduct (juice None [hit] None)
                         (shop [milk; bread])) = Ok (Some r) }).
  { eexists. vm_compute. reflexivity. }
  destruct Hok as [r Hok]. exists r. split; [exact Hok|].
  apply (create_then_delete (juice None [hit] None) (shop [milk; bread]) r);
    [reflexivity | exact Hok].
Defined.



Lemma payload_lookup (d : Update.data) (col : string) :
  updateData d !! col = Terms.payload_column d col.
Proof.
  unfold Terms.payload_column, updateData, updateDataHead.
  repeat match goal with
  | |- context [String.eqb col ?k] =>
      destruct (String.eqb_spec col k) as [-> | ?]
  end;
  rewrite ?lookup_assign_ne by congruence;
  try (rewrite lookup_assign_eq;
       match goal with
       | |- context [match ?x with Some _ => _ | None => _ end] =>
           destruct x; [reflexivity|]
       end;
       rewrite ?lookup_assign_ne by done);
  apply lookup_empty.
Qed.

Lemma accepted_set_lookup (d : Update.data) (set : Row) (col : string) :
  accepted_set d = Some set -> col <> "image"%string ->
  set !! col = Terms.payload_column d col.
Proof.
  unfold accepted_set. intros H Hc. rewrite <- payload_lookup.
  destruct (Update.imageUrls d) as [urls|].
  - destruct (PgArray.read (Js.pgArray urls)) as [l|]; [|discriminate].
    injection H as <-. apply lookup_insert_ne. congruence.
  - injection H as <-. reflexivity.
Qed.

(** X8.  When a product carries the barcode, the payload has a field and
    [updateProduct] returns a row, that row is the first row of the
    barcode under a set of new values: the set holds the payload's value
    in every column the payload supplies, with the list the server reads
    from the image literal in [image], and nothing else, so that every
    other column keeps its old value; in the table every row of that
    barcode is overwritten by the same set, the rows of other barcodes
    are untouched, and no row is added or lost. *)
Theorem updateProduct_changes_only_payload (b : string) (d : Update.data)
    (w : World) (p : Row) (rest : list Row) (r : Row) :
  carrying b (product (db w)) = p :: rest ->
  no_fields d = false ->
  fst (updateProduct b d w) = Ok r ->
  exists set : Row,
    r = set ∪ p
    /\ (forall col : string,
          col <> "image"%string ->
          set !! col = Terms.payload_column d col
          /\ r !! col = match Terms.payload_column d col with
                        | Some v => Some v
                        | None => p !! col
                        end)
    /\ match Update.imageUrls d with
       | None => set !! "image" = None /\ r !! "image" = p !! "image"
       | Some urls =>
           forall l : list string,
             PgArray.read (Js.pgArray urls) = Some l ->
             set !! "image" = Some (VArr l) /\ r !! "image" = Some (VArr l)
       end
    /\ length (product (db (snd (updateProduct b d w))))
       = length (product (db w))
    /\ (forall (i : nat) (x : Row),
          product (db w) !! i = Some x ->
          product (db (snd (updateProduct b d w))) !! i
          = Some (if has_barcode b x then set ∪ x else x)).
Proof.
  intros Hp Hd Hr.
  destruct (updateProduct_ok b d w r Hd Hr)
    as (set & p' & rest' & Hs & Ha & Hp' & ->).
  rewrite Hp in Hp'. injection Hp' as <- <-.
  exists set. split; [reflexivity|]. split; [|split; [|split]].
  - intros col Hc. rewrite updated_lookup, (accepted_set_lookup d set col Hs Hc).
    split; reflexivity.
  - pose proof (accepted_set_image d set Hs) as Hi.
    rewrite updated_lookup.
    destruct (Update.imageUrls d) as [urls|].
    + destruct Hi as (l' & Hl' & ->). intros l Hl.
      assert (l = l') by congruence. subst l'. split; reflexivity.
    + rewrite Hi. split; reflexivity.
  - rewrite updateProduct_run, Hs, Ha by exact Hd.
    cbn [snd with_db db with_products product].
    unfold overwrite. apply length_map.
  - intros i x Hx. rewrite updateProduct_run, Hs, Ha by exact Hd.
    cbn [snd with_db db with_products product].
    unfold overwrite. rewrite list_lookup_fmap, Hx. reflexivity.
Qed.

Lemma updateProduct_changes_only_payload_witness :
  exists r set : Row,
    fst (updateProduct "001" (price_only 10) (shop [milk; bread])) = Ok r
    /\ r = set ∪ milk
    /\ set !! "price" = Some (VNum 10)
    /\ r !! "price" = Some (VNum 10)
    /\ r !! "name" = milk !! "name"
    /\ r !! "image" = milk !! "image"
    /\ length (product (db (snd (updateProduct "001" (price_only 10)
                                   (shop [milk; bread])))))
       = length (product (db (shop [milk; bread]))).
Proof.
  assert (Hok : { r : Row |
                  fst (updateProduct "001" (price_only 10)
                         (shop [milk; bread])) = Ok r }).
  { eexists. vm_compute. reflexivity. }
  destruct Hok as [r Hok].
  assert (Hp : carrying "001" (product (db (shop [milk; bread]))) = [milk]).
  { vm_compute. reflexivity. }
  destruct (updateProduct_changes_only_payload "001" (price_only 10)
              (shop [milk; bread]) milk [] r Hp eq_refl Hok)
    as (set & Hr & Hcol & Himage & Hlen & _).
  exists r, set. split; [exact Hok|]. split; [exact Hr|].
  split; [apply (Hcol "price"%string); discriminate|].
  split; [apply (Hcol "price"%string); discriminate|].
  split; [apply (Hcol "name"%string); discriminate|].
  split; [apply Himage | exact Hlen].
Defined.

Lemma new_row_default (d : Create.data) (dflt r : Row) (col : string) :
  new_row d dflt = Some r ->
  col ∉ ["barcode"; "name"; "branch_id"; "price"; "stock"; "real_price";
         "category_id"; "description"; "tegs"; "image"]%string ->
  r !! col = dflt !! col.
Proof.
  intros H Hc. unfold new_row in H.
  destruct (stored_image _) as [img|]; [|discriminate H].
  injection H as <-. rewrite !not_elem_of_cons in Hc.
  destruct Hc as (? & ? & ? & ? & ? & ? & ? & ? & ? & ? & _).
  rewrite lookup_union_r; [reflexivity|].
  repeat (rewrite lookup_insert_ne by congruence).
  apply lookup_singleton_ne. congruence.
Qed.

Ltac new_row_plain H :=
  unfold new_row in H;
  destruct (stored_image _) as [img|]; [|discriminate H];
  injection H as <-;
  apply lookup_union_Some_l;
  repeat (rewrite lookup_insert_ne by done);
  first [apply lookup_insert_eq | apply lookup_singleton_eq].

Lemma new_row_scalars (d : Create.data) (dflt r : Row) :
  new_row d dflt = Some r ->
  r !! "name" = Some (VStr (Create.name d))
  /\ r !! "branch_id" = Some (VNum (Create.branch_id d))
  /\ r !! "price" = Some (VNum (Create.price d))
  /\ r !! "stock" = Some (VNum (Create.stock d))
  /\ r !! "real_price" = Some (VNum (Create.real_price d))
  /\ r !! "category_id" = Some (VNum (Create.category_id d)).
Proof.
  intros H. repeat split; new_row_plain H.
Qed.

(** X9.  [createProduct] sends one [INSERT]; when it returns a row, the
    row is appended to the table, the rows already there are kept, and
    the row holds the payload's barcode, name, branch, prices, stock and
    category, [NULL] for a description that is absent or empty and else
    the description, [NULL] for an empty list of tags and else the tags,
    [NULL] for absent or no image URLs and else the list the server
    reads from their literal, and in every other column holds the
    server's default. *)
Theorem createProduct_stores_payload (d : Create.data) (w : World) (r : Row) :
  fst (createProduct d w) = Ok (Some r) ->
  trace (snd (createProduct d w))
  = trace w ++ [Raw createProductQuery (createBindings d)]
  /\ product (db (snd (createProduct d w))) = product (db w) ++ [r]
  /\ r !! "barcode" = Some (VStr (Create.barcode d))
  /\ r !! "name" = Some (VStr (Create.name d))
  /\ r !! "branch_id" = Some (VNum (Create.branch_id d))
  /\ r !! "price" = Some (VNum (Create.price d))
  /\ r !! "stock" = Some (VNum (Create.stock d))
  /\ r !! "real_price" = Some (VNum (Create.real_price d))
  /\ r !! "category_id" = Some (VNum (Create.category_id d))
  /\ r !! "description"
     = Some (match Create.description d with
             | None | Some EmptyString => VNull
             | Some (String c s) => VStr (String c s)
             end)
  /\ r !! "tegs"
     = Some (match Create.tegs d with
             | [] => VNull
             | _ :: _ => VArr (map teg_text (Create.tegs d))
             end)
  /\ match Create.imageUrls d with
     | None | Some [] => r !! "image" = Some VNull
     | Some (url :: urls) =>
         forall l : list string,
           PgArray.read (Js.pgArray (url :: urls)) = Some l ->
           r !! "image" = Some (VArr l)
     end
  /\ forall col : string,
       col ∉ ["barcode"; "name"; "branch_id"; "price"; "stock"; "real_price";
              "category_id"; "description"; "tegs"; "image"]%string ->
       r !! col = defaults (db w) !! col.
Proof.
  intros Hr. destruct (createProduct_ok d w r Hr) as (Hn & _ & Hdb).
  split; [apply createProduct_trace|].
  split; [rewrite Hdb; reflexivity|].
  split; [apply (new_row_barcode d _ r Hn)|].
  destruct (new_row_scalars d _ r Hn) as (H1 & H2 & H3 & H4 & H5 & H6).
  do 6 (split; [assumption|]).
  split.
  { rewrite (new_row_description d _ r Hn).
    destruct (Create.description d) as [[|c s]|]; reflexivity. }
  split.
  { rewrite (new_row_tegs d _ r Hn). destruct (Create.tegs d); reflexivity. }
  split.
  { rewrite (new_row_image d _ r Hn). unfold stored_image.
    destruct (Create.imageUrls d) as [[|url urls]|]; try reflexivity.
    intros l ->. reflexivity. }
  intros col Hc. apply (new_row_default d _ r col Hn Hc).
Qed.

Lemma createProduct_stores_payload_witness :
  exists r : Row,
    fst (createProduct (juice (Some "fresh") [hit] (Some ["j.png"]))
           (shop [milk; bread])) = Ok (Some r)
    /\ product (db (snd (createProduct
                           (juice (Some "fresh") [hit] (Some ["j.png"]))
                           (shop [milk; bread]))))
       = [milk; bread; r]
    /\ r !! "barcode" = Some (VStr "004")
    /\ r !! "description" = Some (VStr "fresh")
    /\ r !! "tegs" = Some (VArr ["hit"])
    /\ r !! "image" = Some (VArr ["j.png"])
    /\ r !! "updated_at" = Some (VNum 10).
Proof.
  assert (Hok : { r : Row |
                  fst (createProduct
                         (juice (Some "fresh"%string) [hit]
                            (Some ["j.png"%string]))
                         (shop [milk; bread])) = Ok (Some r) }).
  { eexists. vm_compute. reflexivity. }
  destruct Hok as [r Hok].
  destruct (createProduct_stores_payload
              (juice (Some "fresh"%string) [hit] (Some ["j.png"%string]))
              (shop [milk; bread]) r Hok)
    as (_ & Hp & Hb & _ & _ & _ & _ & _ & _ & Hd & Ht & Hi & Hdef).
  exists r. split; [exact Hok|]. split; [exact Hp|]. split; [exact Hb|].
  split; [exact Hd|]. split; [exact Ht|].
  split; [apply Hi; vm_compute; reflexivity|].
  apply (Hdef "updated_at"%string). vm_compute. 
  intros H. repeat (apply elem_of_cons in H as [H | H]; [discriminate H|]).
  apply elem_of_nil in H. exact H.
Defined.

(** ** Arguments out of range *)

Lemma limit_rejected (q : Select) (bound : list Val) (lim off : Z) (d : Db) :
  sel_limit q = true ->
  bind_atoms (default [] (sel_where q)) (bound ++ [VNum lim; VNum off])
  = Some (zip (default [] (sel_where q)) bound, [VNum lim; VNum off]) ->
  lim < 0 \/ off < 0 ->
  exists e : DbError, run_select q (bound ++ [VNum lim; VNum off]) d = inl e.
Proof.
  intros Hl Hb Hneg. unfold run_select. rewrite Hb, Hl.
  destruct (Z.ltb_spec lim 0); [eauto|].
  destruct (Z.ltb_spec off 0); [eauto|]. lia.
Qed.

(** X10.  The repository does not check its paging arguments: with a
    negative [pageSize], or a negative offset [(page - 1) * pageSize]
    (as for [page = 0]), both listings send the count statement and then
    the page statement, which the server rejects; the methods fail with
    that error and the tables are untouched. *)
Theorem bad_page_rejected (page pageSize : Z) (q : option string) (w : World) :
  pageSize < 0 \/ (page - 1) * pageSize < 0 ->
  (exists e : DbError,
     fst (selectAllProduct page pageSize w) = Throw (PgError e))
  /\ (exists e : DbError,
        fst (getProducts page pageSize q w) = Throw (PgError e))
  /\ db (snd (selectAllProduct page pageSize w)) = db w
  /\ db (snd (getProducts page pageSize q w)) = db w
  /\ length (trace (snd (selectAllProduct page pageSize w)))
     = (length (trace w) + 2)%nat
  /\ length (trace (snd (getProducts page pageSize q w)))
     = (length (trace w) + 2)%nat.
Proof.
  intros Hneg.
  assert (Hall : exists e,
            selectAllProduct page pageSize w
            = (Throw (PgError e),
               record (Raw selectAllProductQuery
                         [VNum pageSize; VNum ((page - 1) * pageSize)])
                 (record (Raw countAllQuery []) w))).
  { unfold selectAllProduct, bind, countAllQuery, selectAllProductQuery.
    rewrite raw_select, count_all, count_row, raw_select. cbn [db record].
    destruct (limit_rejected
                {| sel_proj := ProductStar; sel_from := FromProduct;
                   sel_where := None; sel_order := true; sel_limit := true |}
                [] pageSize ((page - 1) * pageSize) (db w))
      as (e & He); [reflexivity | reflexivity | exact Hneg |].
    cbn [app] in He. rewrite He. eauto. }
  assert (Hget : exists e s1 s2,
            getProducts page pageSize q w
            = (Throw (PgError e), record s2 (record s1 w))).
  { unfold getProducts, bind.
    destruct (hasQuery q).
    - unfold countSearchQuery, pageSearchQuery.
      rewrite raw_select, count_search, raw_select. cbn [db record].
      destruct (limit_rejected
                  {| sel_proj := ProductStarBranchName;
                     sel_from := FromProductJoinBranch;
                     sel_where := Some [TsNameMatch; NameILike; BarcodeILike];
                     sel_order := true; sel_limit := true |}
                  [VStr (default EmptyString q);
                   VStr (Js.wrapPercent (default EmptyString q));
                   VStr (Js.wrapPercent (default EmptyString q))]
                  pageSize ((page - 1) * pageSize) (db w))
        as (e & He); [reflexivity | reflexivity | exact Hneg |].
      cbn [app] in He. rewrite He. eauto.
    - unfold countAllQuery, pageAllQuery.
      rewrite raw_select, count_all, raw_select. cbn [db record].
      destruct (limit_rejected
                  {| sel_proj := ProductStarBranchName;
                     sel_from := FromProductJoinBranch;
                     sel_where := None; sel_order := true;
                     sel_limit := true |}
                  [] pageSize ((page - 1) * pageSize) (db w))
        as (e & He); [reflexivity | reflexivity | exact Hneg |].
      cbn [app] in He. rewrite He. eauto. }
  destruct Hall as (e1 & ->). destruct Hget as (e2 & s1 & s2 & ->).
  cbn [fst snd db record trace].
  split; [eauto|]. split; [eauto|]. split; [reflexivity|].
  split; [reflexivity|].
  rewrite !length_app. cbn [length]. split; lia.
Qed.

Lemma bad_page_rejected_witness :
  (exists e : DbError,
     fst (selectAllProduct 0 10 (shop [milk; bread])) = Throw (PgError e))
  /\ (exists e : DbError,
        fst (getProducts 0 10 None (shop [milk; bread])) = Throw (PgError e))
  /\ db (snd (selectAllProduct 0 10 (shop [milk; bread])))
     = db (shop [milk; bread])
  /\ db (snd (getProducts 0 10 None (shop [milk; bread])))
     = db (shop [milk; bread])
  /\ length (trace (snd (selectAllProduct 0 10 (shop [milk; bread]))))
     = (length (trace (shop [milk; bread])) + 2)%nat
  /\ length (trace (snd (getProducts 0 10 None (shop [milk; bread]))))
     = (length (trace (shop [milk; bread])) + 2)%nat.
Proof.
  apply (bad_page_rejected 0 10 None (shop [milk; bread])). right. lia.
Defined.

Lemma slice_zero {A} (page : Z) (l : list A) : slice page 0 l = [].
Proof. reflexivity. Qed.

Lemma paginate_zero (page : Z) (n : nat) (rows : list Row) :
  paginate page 0 (NInt (Z.of_nat n)) rows
  = {| data := rows;
       pagination :=
         {| total_records := NInt (Z.of_nat n);
            current_page := page;
            total_pages := if (n =? 0)%nat then NNaN else NInf true;
            next_page := if (n =? 0)%nat then None else Some (page + 1);
            prev_page := if 1 <? page then Some (page - 1) else None |} |}.
Proof.
  unfold paginate, Js.ceilDiv. cbn [Z.eqb].
  destruct n as [|n]; [reflexivity|].
  change (S n =? 0)%nat with false.
  destruct (Z.eqb_spec (Z.of_nat (S n)) 0) as [H|_]; [lia|].
  destruct (Z.ltb_spec 0 (Z.of_nat (S n))) as [_|H]; [reflexivity|lia].
Qed.

(** X11.  With [pageSize = 0] both listings succeed with no rows; when
    the set they count is not empty [total_pages] is infinite and
    [next_page] is [page + 1] on every page, and when it is empty
    [total_pages] is [NaN] and [next_page] is null. *)
Theorem zero_page_size (page : Z) (q : option string) (w : World)
    (r : Res Page) :
  r = fst (selectAllProduct page 0 w) \/ r = fst (getProducts page 0 q w) ->
  exists n : nat,
    r = Ok {| data := [];
              pagination :=
                {| total_records := NInt (Z.of_nat n);
                   current_page := page;
                   total_pages := if (n =? 0)%nat then NNaN else NInf true;
                   next_page := if (n =? 0)%nat then None else Some (page + 1);
                   prev_page := if 1 <? page then Some (page - 1) else None |} |}.
Proof.
  assert (Ho : 0 <= (page - 1) * 0) by lia.
  intros [-> | ->].
  - rewrite selectAllProduct_run by (assumption || lia).
    eexists. cbn [fst]. rewrite paginate_zero. reflexivity.
  - destruct (blank q) eqn:Hq.
    + rewrite getProducts_listing by (assumption || lia).
      eexists. cbn [fst]. rewrite paginate_zero. reflexivity.
    + destruct q as [q|]; [|discriminate].
      rewrite getProducts_search by (assumption || lia).
      eexists. cbn [fst]. rewrite paginate_zero. reflexivity.
Qed.

Lemma zero_page_size_witness :
  exists n : nat,
    fst (selectAllProduct 7 0 (shop [milk; bread]))
    = Ok {| data := [];
            pagination :=
              {| total_records := NInt (Z.of_nat n);
                 current_page := 7;
                 total_pages := if (n =? 0)%nat then NNaN else NInf true;
                 next_page := if (n =? 0)%nat then None else Some (7 + 1);
                 prev_page := if 1 <? 7 then Some (7 - 1) else None |} |}.
Proof.
  apply (zero_page_size 7 None (shop [milk; bread])). left. reflexivity.
Defined.

(** ** Where the rows come from *)

Lemma elem_of_slice {A} (page pageSize : Z) (x : A) (l : list A) :
  x ∈ slice page pageSize l -> x ∈ l.
Proof.
  unfold slice. intros H. apply subseteq_take in H. apply subseteq_drop in H.
  exact H.
Qed.

Lemma elem_of_listing_inv (rows : list (Row * Row)) (r : Row) :
  r ∈ listing rows ->
  exists p b : Row,
    (p, b) ∈ rows /\ r = <["branch_name" := default VNull (b !! "name")]> p.
Proof.
  unfold listing, project. intros H.
  apply list_elem_of_fmap in H as ([p b] & -> & H).
  apply elem_of_order_desc in H. eauto.
Qed.

(** X12.  Every row on a page of [getProducts] is a product of the table
    that refers to a branch, extended with that branch's name, and with
    a search text the product satisfies the search condition; every row
    on a page of [selectAllProduct] is a row of the product table.  A
    product that refers to no branch is therefore on no page of
    [getProducts], though the count without search text includes it. *)
Theorem rows_come_from_the_tables (page pageSize : Z) (q : option string)
    (w : World) :
  1 <= page -> 1 <= pageSize ->
  (exists g : Page,
     fst (getProducts page pageSize q w) = Ok g
     /\ (blank q = true ->
         total_records (pagination g)
         = NInt (Z.of_nat (length (product (db w)))))
     /\ forall r : Row,
          r ∈ data g ->
          exists p b : Row,
            p ∈ product (db w) /\ b ∈ branches_of (db w) p
            /\ r = <["branch_name" := default VNull (b !! "name")]> p
            /\ forall text : string,
                 blank q = false -> q = Some text ->
                 matches (db w) text p = true)
  /\ (exists a : Page,
        fst (selectAllProduct page pageSize w) = Ok a
        /\ forall r : Row, r ∈ data a -> r ∈ product (db w)).
Proof.
  intros Hp Hs. pose proof (offset_nonneg page pageSize Hp Hs) as Ho. split.
  - destruct (blank q) eqn:Hq.
    + rewrite getProducts_listing by (assumption || lia).
      eexists. split; [reflexivity|]. cbn [paginate data pagination total_records].
      split; [reflexivity|].
      intros r Hr. apply elem_of_slice, elem_of_listing_inv in Hr
        as (p & b & Hpb & ->).
      apply elem_of_joined in Hpb as [Hpp Hb].
      exists p, b. repeat (split; [assumption || reflexivity|]).
      intros text Hf. discriminate.
    + destruct q as [q|]; [|discriminate].
      rewrite getProducts_search by (assumption || lia).
      eexists. split; [reflexivity|]. cbn [paginate data].
      split; [intros Hf; discriminate|].
      intros r Hr. apply elem_of_slice, elem_of_listing_inv in Hr
        as (p & b & Hpb & ->).
      unfold found in Hpb. apply list_elem_of_filter in Hpb as [Hm Hpb].
      apply elem_of_joined in Hpb as [Hpp Hb].
      exists p, b. repeat (split; [assumption || reflexivity|]).
      intros text _ [= <-]. apply Is_true_true. exact Hm.
  - rewrite selectAllProduct_run by (assumption || lia).
    eexists. split; [reflexivity|]. cbn [paginate data].
    intros r Hr. apply elem_of_slice in Hr.
    apply elem_of_order_desc in Hr. exact Hr.
Qed.

Lemma rows_come_from_the_tables_witness :
  (exists g : Page,
     fst (getProducts 1 10 (Some "milk") (shop [milk; bread])) = Ok g
     /\ (blank (Some "milk") = true ->
         total_records (pagination g)
         = NInt (Z.of_nat (length (product (db (shop [milk; bread]))))))
     /\ forall r : Row,
          r ∈ data g ->
          exists p b : Row,
            p ∈ product (db (shop [milk; bread]))
            /\ b ∈ branches_of (db (shop [milk; bread])) p
            /\ r = <["branch_name" := default VNull (b !! "name")]> p
            /\ forall text : string,
                 blank (Some "milk") = false -> Some "milk"%string = Some text ->
                 matches (db (shop [milk; bread])) text p = true)
  /\ (exists a : Page,
        fst (selectAllProduct 1 10 (shop [milk; bread])) = Ok a
        /\ forall r : Row,
             r ∈ data a -> r ∈ product (db (shop [milk; bread]))).
Proof.
  apply (rows_come_from_the_tables 1 10 (Some "milk"%string)
           (shop [milk; bread])); lia.
Defined.

(** ** Array literals *)

(** X14.  The elements are quoted but not escaped: a URL that holds a
    double quote, a comma and a double quote gives the same text as two
    URLs, and the server reads two elements where one was written. *)
Theorem unescaped_quote_splits_element (x y : string) (rest : list string) :
  Js.pgArray ((x +:+ Js.dquote +:+ "," +:+ Js.dquote +:+ y) :: rest)
  = Js.pgArray (x :: y :: rest)
  /\ (forallb PgArray.clean (x :: y :: rest) = true ->
      PgArray.read
        (Js.pgArray ((x +:+ Js.dquote +:+ "," +:+ Js.dquote +:+ y) :: rest))
      = Some (x :: y :: rest)).
Proof.
  assert (Heq :
    Js.pgArray ((x +:+ Js.dquote +:+ "," +:+ Js.dquote +:+ y) :: rest)
    = Js.pgArray (x :: y :: rest)).
  { rewrite !pgArray_shape. cbn [PgArray.tail_text].
    rewrite !quoted_shape. unfold Js.dquote.
    rewrite !append_cons, !append_assoc. reflexivity. }
  split; [exact Heq|].
  intros Hclean. rewrite Heq. apply read_pgArray, Hclean.
Qed.

Lemma unescaped_quote_splits_element_witness :
  Js.pgArray (("a" +:+ Js.dquote +:+ "," +:+ Js.dquote +:+ "b") :: [])
  = Js.pgArray ["a"; "b"]%string
  /\ PgArray.read
       (Js.pgArray (("a" +:+ Js.dquote +:+ "," +:+ Js.dquote +:+ "b") :: []))
     = Some ["a"; "b"]%string.
Proof.
  destruct (unescaped_quote_splits_element "a" "b" []) as [Heq Hread].
  split; [exact Heq|]. apply Hread. reflexivity.
Defined.

(** ** The migration *)

(** X16.  [down] undoes [up] on a catalog without [admin] table, and on
    any catalog [down] after [up] leaves no [admin] table: a table that
    was there before [up], with its rows, is dropped too.  [down] is safe
    to repeat and never touches another table. *)
Theorem down_after_up (c : Migration.Catalog) :
  Migration.down (Migration.up c) = Migration.down c
  /\ Migration.down (Migration.up c) !! "admin" = None
  /\ (c !! "admin" = None -> Migration.down (Migration.up c) = c)
  /\ Migration.down (Migration.down c) = Migration.down c
  /\ (forall name : string,
        name <> "admin"%string -> Migration.down c !! name = c !! name).
Proof.
  unfold Migration.down, Migration.up, Migration.raw.
  split.
  { destruct (c !! "admin"); [reflexivity|]. apply delete_insert_eq. }
  split.
  { apply lookup_delete_eq. }
  split.
  { intros Hc. rewrite Hc, delete_insert_eq. apply delete_id, Hc. }
  split.
  { apply delete_id, lookup_delete_eq. }
  intros name Hne. apply lookup_delete_ne. congruence.
Qed.

Lemma down_after_up_witness :
  Migration.down (Migration.up ∅) = Migration.down ∅
  /\ Migration.down (Migration.up ∅) !! "admin" = None
  /\ Migration.down (Migration.up ∅) = ∅
  /\ Migration.down (Migration.down ∅) = Migration.down ∅
  /\ Migration.down ∅ !! "product" = (∅ : Migration.Catalog) !! "product".
Proof.
  destruct (down_after_up ∅) as (H1 & H2 & H3 & H4 & H5).
  split; [exact H1|]. split; [exact H2|]. split; [apply H3; reflexivity|].
  split; [exact H4|]. apply H5. discriminate.
Defined.

(** ** Methods, one after the other *)

Lemma insert_desc_perm {A} (key : A -> option Z) (x : A) (l : list A) :
  insert_desc key x l ≡ₚ x :: l.
Proof.
  induction l as [|y l IH]; cbn [insert_desc]; [reflexivity|].
  destruct (desc_le (key x) (key y)); [reflexivity|].
  rewrite IH. apply Permutation_swap.
Qed.

Lemma order_desc_perm {A} (key : A -> option Z) (l : list A) :
  order_desc key l ≡ₚ l.
Proof.
  unfold order_desc. induction l as [|x l IH]; cbn [fold_right]; [reflexivity|].
  rewrite insert_desc_perm, IH. reflexivity.
Qed.

Lemma slice_all {A} (pageSize : Z) (l : list A) :
  Z.of_nat (length l) <= pageSize -> slice 1 pageSize l = l.
Proof.
  intros H. unfold slice. cbn [Z.sub Z.mul Z.to_nat drop]. 
  apply take_ge. lia.
Qed.

(** X17.  When the rows [searchProduct] returns for a text fit on one
    page, page 1 of [getProducts] with that text holds the same rows,
    reordered newest first; it counts them all and has no next page. *)
Theorem first_page_is_search (pageSize : Z) (q : string) (w : World)
    (rows : list Row) :
  blank (Some q) = false -> 1 <= pageSize ->
  fst (searchProduct q w) = Ok rows ->
  Z.of_nat (length rows) <= pageSize ->
  exists g : Page,
    fst (getProducts 1 pageSize (Some q) w) = Ok g
    /\ data g ≡ₚ rows
    /\ Terms.newest_first (data g)
    /\ total_records (pagination g) = NInt (Z.of_nat (length rows))
    /\ next_page (pagination g) = None
    /\ prev_page (pagination g) = None.
Proof.
  intros Hq Hs Hrows Hfit. rewrite searchProduct_run in Hrows.
  cbn [fst] in Hrows. injection Hrows as <-.
  unfold project in Hfit. rewrite length_map in Hfit.
  rewrite getProducts_search by (assumption || lia).
  eexists. split; [reflexivity|]. cbn [paginate data pagination
    total_records next_page prev_page].
  rewrite slice_all by (rewrite length_listing; exact Hfit).
  split.
  { unfold listing, project. apply fmap_Permutation, order_desc_perm. }
  split; [apply listing_newest_first|].
  split; [unfold project; rewrite length_map; reflexivity|].
  split; [|reflexivity].
  destruct (ceilDiv_pages (Z.of_nat (length (found (db w) q))) pageSize)
    as (k & Hk & Hb); [lia|].
  rewrite Hk. cbn [Js.ltNum].
  destruct (Z.ltb_spec 1 k); [nia | reflexivity].
Qed.

Lemma first_page_is_search_witness :
  exists g : Page,
    fst (getProducts 1 10 (Some "0") (shop [milk; bread])) = Ok g
    /\ data g ≡ₚ [ <["branch_name" := VStr "Main"]> milk;
                   <["branch_name" := VStr "Main"]> bread ]
    /\ Terms.newest_first (data g)
    /\ total_records (pagination g) = NInt 2
    /\ next_page (pagination g) = None
    /\ prev_page (pagination g) = None.
Proof.
  apply (first_page_is_search 10 "0" (shop [milk; bread])
           [ <["branch_name" := VStr "Main"]> milk;
             <["branch_name" := VStr "Main"]> bread ]).
  - reflexivity.
  - lia.
  - vm_compute. reflexivity.
  - simpl. lia.
Defined.

Lemma accepted_set_barcode (d : Update.data) (set : Row) :
  accepted_set d = Some set ->
  set !! "barcode" = VStr <$> Update.barcode d.
Proof.
  intros H. rewrite (accepted_set_lookup d set "barcode" H) by discriminate.
  reflexivity.
Qed.

Lemma has_barcode_updated (b b' : string) (d : Update.data) (set x : Row) :
  set !! "barcode" = VStr <$> Update.barcode d ->
  has_barcode b x = true ->
  b' = default b (Update.barcode d) ->
  has_barcode b' (set ∪ x) = true.
Proof.
  intros Hs Hx ->. unfold has_barcode in *.
  rewrite updated_lookup, Hs.
  destruct (Update.barcode d) as [c|]; cbn [fmap option_fmap option_map default
    from_option id].
  - apply String.eqb_refl.
  - exact Hx.
Qed.

Lemma carrying_overwrite (b b' : string) (d : Update.data) (set : Row)
    (l : list Row) :
  set !! "barcode" = VStr <$> Update.barcode d ->
  b' = default b (Update.barcode d) ->
  b' = b \/ forallb (fun p => negb (has_barcode b' p)) l = true ->
  carrying b' (overwrite b set l) = map (fun p => set ∪ p) (carrying b l).
Proof.
  intros Hs Hb' Hfree. unfold carrying, overwrite.
  induction l as [|x l IH]; [reflexivity|].
  assert (Hl : b' = b \/ forallb (fun p => negb (has_barcode b' p)) l = true).
  { destruct Hfree as [?|H]; [left; assumption|right].
    cbn [forallb] in H. apply andb_true_iff in H as [_ H]. exact H. }
  cbn [map]. rewrite !filter_cons, IH by exact Hl.
  destruct (has_barcode b x) eqn:Hx.
  - rewrite (has_barcode_updated b b' d set x Hs Hx Hb').
    destruct (decide (Is_true true)) as [_|Hn]; [reflexivity|].
    exfalso. apply Hn. exact I.
  - assert (Hx' : has_barcode b' x = false).
    { destruct Hfree as [-> | H]; [exact Hx|].
      cbn [forallb] in H. apply andb_true_iff in H as [H _].
      apply negb_true_iff in H. exact H. }
    rewrite Hx'.
    destruct (decide (Is_true false)) as [[]|_]. reflexivity.
Qed.

Lemma carrying_renamed (b b' : string) (d : Update.data) (set : Row)
    (l : list Row) :
  set !! "barcode" = VStr <$> Update.barcode d ->
  Update.barcode d = Some b' -> b' <> b ->
  carrying b (overwrite b set l) = [].
Proof.
  intros Hs Hd Hne. unfold carrying, overwrite.
  induction l as [|x l IH]; [reflexivity|].
  cbn [map]. rewrite filter_cons, IH.
  destruct (has_barcode b x) eqn:Hx.
  - assert (H : has_barcode b (set ∪ x) = false).
    { unfold has_barcode. rewrite updated_lookup, Hs, Hd.
      cbn [fmap option_fmap option_map].
      apply String.eqb_neq, Hne. }
    rewrite H. destruct (decide (Is_true false)) as [[]|_]. reflexivity.
  - rewrite Hx. destruct (decide (Is_true false)) as [[]|_]. reflexivity.
Qed.

(** X18.  After an [updateProduct] that returned a row,
    [selectByIDProduct] under the barcode the row now has (the
    payload's, or else the old one) returns that row, provided a new
    barcode was carried by no product before; and when the barcode was
    changed, nothing is found under the old one. *)
Theorem update_then_select (b : string) (d : Update.data) (w : World)
    (r : Row) :
  no_fields d = false ->
  fst (updateProduct b d w) = Ok r ->
  default b (Update.barcode d) = b
  \/ unknown (default b (Update.barcode d)) (db w) = true ->
  fst (selectByIDProduct (default b (Update.barcode d))
         (snd (updateProduct b d w))) = Ok (Some r)
  /\ (default b (Update.barcode d) <> b ->
      fst (selectByIDProduct b (snd (updateProduct b d w))) = Ok None).
Proof.
  intros Hd Hr Hfree.
  destruct (updateProduct_ok b d w r Hd Hr)
    as (set & p & rest & Hs & Ha & Hp & ->).
  pose proof (accepted_set_barcode d set Hs) as Hb.
  rewrite updateProduct_run, Hs, Ha by exact Hd. cbn [snd].
  rewrite !selectByIDProduct_run. cbn [fst with_db db with_products product].
  split.
  - fold (carrying (default b (Update.barcode d))
            (overwrite b set (product (db w)))).
    rewrite (carrying_overwrite b _ d set _ Hb eq_refl Hfree), Hp. reflexivity.
  - intros Hne.
    fold (carrying b (overwrite b set (product (db w)))).
    destruct (Update.barcode d) as [b'|] eqn:Hbd;
      [|contradiction Hne; reflexivity].
    rewrite <- Hbd in Hb.
    rewrite (carrying_renamed b b' d set _ Hb Hbd Hne). reflexivity.
Qed.

Lemma update_then_select_witness :
  exists r : Row,
    fst (updateProduct "001" (price_only 10) (shop [milk; bread])) = Ok r
    /\ fst (selectByIDProduct "001"
              (snd (updateProduct "001" (price_only 10) (shop [milk; bread]))))
       = Ok (Some r).
Proof.
  assert (Hok : { r : Row |
                  fst (updateProduct "001" (price_only 10)
                         (shop [milk; bread])) = Ok r }).
  { eexists. vm_compute. reflexivity. }
  destruct Hok as [r Hok]. exists r. split; [exact Hok|].
  apply (update_then_select "001" (price_only 10) (shop [milk; bread]) r);
    [reflexivity | exact Hok | left; reflexivity].
Defined.

(** X19.  Both listings without search text count the same products
    before and after a call of [createProduct]: one product more after a
    call that returned a row, and as many as before after a call that
    raised. *)
Theorem create_adds_one (d : Create.data) (page pageSize : Z) (w : World) :
  1 <= page -> 1 <= pageSize ->
  exists (n : Z) (a a' g g' : Page),
    fst (selectAllProduct page pageSize w) = Ok a
    /\ fst (selectAllProduct page pageSize (snd (createProduct d w))) = Ok a'
    /\ fst (getProducts page pageSize None w) = Ok g
    /\ fst (getProducts page pageSize None (snd (createProduct d w))) = Ok g'
    /\ total_records (pagination a) = NInt n
    /\ total_records (pagination g) = NInt n
    /\ total_records (pagination a') = total_records (pagination g')
    /\ ((exists r : Row, fst (createProduct d w) = Ok (Some r)) ->
        total_records (pagination a') = NInt (n + 1))
    /\ ((exists e : Exn, fst (createProduct d w) = Throw e) ->
        total_records (pagination a') = NInt n).
Proof.
  intros Hp Hs. pose proof (offset_nonneg page pageSize Hp Hs) as Ho.
  rewrite !selectAllProduct_run by (assumption || lia).
  rewrite !getProducts_listing by (reflexivity || assumption || lia).
  exists (Z.of_nat (length (product (db w)))).
  eexists _, _, _, _.
  do 6 (split; [reflexivity|]).
  cbn [fst paginate pagination total_records].
  split; [reflexivity|].
  rewrite createProduct_run.
  destruct (new_row d (defaults (db w))) as [r|].
  - destruct (admits (db w) (product (db w)) r).
    + cbn [fst snd with_db db with_products product].
      rewrite length_app. cbn [length].
      replace (Z.of_nat (length (product (db w)) + 1))
        with (Z.of_nat (length (product (db w))) + 1) by lia.
      split; [reflexivity|]. intros [e He]. discriminate He.
    + cbn [fst snd record db]. split; [|reflexivity].
      intros [r' Hr']. discriminate Hr'.
  - cbn [fst snd record db]. split; [|reflexivity].
    intros [r' Hr']. discriminate Hr'.
Qed.

Lemma create_adds_one_witness :
  exists (n : Z) (a a' g g' : Page),
    fst (selectAllProduct 1 10 (shop [milk; bread])) = Ok a
    /\ fst (selectAllProduct 1 10
              (snd (createProduct (juice None [] None) (shop [milk; bread]))))
       = Ok a'
    /\ fst (getProducts 1 10 None (shop [milk; bread])) = Ok g
    /\ fst (getProducts 1 10 None
              (snd (createProduct (juice None [] None) (shop [milk; bread]))))
       = Ok g'
    /\ total_records (pagination a) = NInt n
    /\ total_records (pagination g) = NInt n
    /\ total_records (pagination a') = NInt (n + 1)
    /\ total_records (pagination g') = NInt (n + 1).
Proof.
  destruct (create_adds_one (juice None [] None) 1 10 (shop [milk; bread]))
    as (n & a & a' & g & g' & Ha & Ha' & Hg & Hg' & Hn & Hn' & Heq & Hok & _);
    [lia | lia |].
  assert (H : total_records (pagination a') = NInt (n + 1)).
  { apply Hok. eexists. vm_compute. reflexivity. }
  exists n, a, a', g, g'.
  split; [exact Ha|]. split; [exact Ha'|]. split; [exact Hg|].
  split; [exact Hg'|]. split; [exact Hn|]. split; [exact Hn'|].
  split; [exact H|]. rewrite <- Heq. exact H.
Defined.

(** ** Wildcards in the search text *)

Lemma like_percents (q s : string) :
  all_chars (fun c => Ascii.eqb c "%") q = true ->
  like (q +:+ "%") s = true.
Proof.
  induction q as [|c q IH]; intros Hq.
  - apply like_percent_all.
  - cbn [all_chars] in Hq. apply andb_true_iff in Hq as [Hc Hq].
    apply Ascii.eqb_eq in Hc. subst c.
    rewrite append_cons. apply like_percent_here, IH, Hq.
Qed.

Lemma lower_percents (q : string) :
  all_chars (fun c => Ascii.eqb c "%") q = true -> lower_string q = q.
Proof.
  induction q as [|c q IH]; [reflexivity|]. cbn [all_chars]. intros Hq.
  apply andb_true_iff in Hq as [Hc Hq]. apply Ascii.eqb_eq in Hc. subst c.
  cbn [lower_string]. rewrite IH by exact Hq. reflexivity.
Qed.

(** X20.  The search text reaches [ILIKE] with its wildcards alive: for
    a text made of percent signs only, every product that joins a branch
    and has a text as name or as barcode is returned by
    [searchProduct]. *)
Theorem percent_finds_everything (q : string) (w : World) (p b : Row)
    (s : string) :
  all_chars (fun c => Ascii.eqb c "%") q = true ->
  p ∈ product (db w) -> b ∈ branches_of (db w) p ->
  p !! "name" = Some (VStr s) \/ p !! "barcode" = Some (VStr s) ->
  exists rows : list Row,
    fst (searchProduct q w) = Ok rows
    /\ <["branch_name" := default VNull (b !! "name")]> p ∈ rows.
Proof.
  intros Hq Hp Hb Hcol. rewrite searchProduct_run. eexists.
  split; [reflexivity|]. unfold project.
  apply (list_elem_of_fmap_2
           (fun '(p, b) => <["branch_name" := default VNull (b !! "name")]> p)
           _ (p, b)).
  unfold found. apply list_elem_of_filter. split.
  - cbn [fst]. apply Is_true_true.
    apply (Contract.matches_by_text _ _ s); [exact Hcol|].
    unfold ilike, Js.wrapPercent. rewrite !lower_string_app.
    rewrite (lower_percents q Hq).
    change (lower_string "%") with "%"%string.
    change ("%" +:+ q +:+ "%") with (String "%" (q +:+ "%")).
    apply like_percent_here, like_percents, Hq.
  - apply elem_of_joined. split; assumption.
Qed.

Lemma percent_finds_everything_witness :
  exists rows : list Row,
    fst (searchProduct "%" (shop [milk; bread])) = Ok rows
    /\ <["branch_name" := default VNull (main_branch !! "name")]> bread
       ∈ rows.
Proof.
  apply (percent_finds_everything "%" (shop [milk; bread]) bread main_branch
           "Bread").
  - reflexivity.
  - apply elem_of_cons. right. apply elem_of_cons. left. reflexivity.
  - vm_compute. apply elem_of_cons. left. reflexivity.
  - left. reflexivity.
Defined.

(** ** Misses *)






End Further.
